(** * MCP-Playground: the weather tool server and the chat client

    A shallow embedding of [weather.py] (the static lookup tools and the
    two network tools) and of [client.py] ([MCPClient.process_query],
    the start-up and the interactive loop), followed by the properties
    of the specification that concern them.

    Python values are modelled as the code sees them: a [str] is a
    sequence of Unicode code points, a decoded JSON document is a tree, a
    [dict] literal is an association list in insertion order.  Whatever
    lives outside the repository (the Unicode case tables behind
    [str.upper] and [str.title], floats, the HTTP endpoint, the model API,
    the tool session, the built-in [eval]) is a parameter of the section
    that uses it. *)

From Stdlib Require Import Ascii String List NArith ZArith Bool Lia.
From Stdlib Require Import Orders Sorting.Mergesort Sorting.Sorted Sorting.Permutation.
From Stdlib Require Import DecimalString.
Import ListNotations.

Set Implicit Arguments.
Set Warnings "-register-all".

(* ================================================================== *)
(** * Python strings *)
(* ================================================================== *)

Module PyStr.

Definition codepoint := N.
Definition pystr := list codepoint.

(** The source files are UTF-8; a literal of the model is written as the
    same text and decoded to code points (one to four bytes each). *)
Fixpoint utf8 (bs : list N) : pystr :=
  match bs with
  | [] => []
  | b0 :: r0 =>
    if (b0 <? 128)%N then b0 :: utf8 r0
    else match r0 with
    | [] => []
    | b1 :: r1 =>
      if (b0 <? 224)%N then ((b0 - 192) * 64 + (b1 - 128))%N :: utf8 r1
      else match r1 with
      | [] => []
      | b2 :: r2 =>
        if (b0 <? 240)%N
        then ((b0 - 224) * 4096 + (b1 - 128) * 64 + (b2 - 128))%N :: utf8 r2
        else match r2 with
        | [] => []
        | b3 :: r3 =>
          ((b0 - 240) * 262144 + (b1 - 128) * 4096
           + (b2 - 128) * 64 + (b3 - 128))%N :: utf8 r3
        end
      end
    end
  end.

Definition py (lit : string) : pystr :=
  utf8 (map N_of_ascii (list_ascii_of_string lit)).

(** [a == b] on two [str]. *)
Fixpoint str_eqb (a b : pystr) : bool :=
  match a, b with
  | [], [] => true
  | x :: a', y :: b' => (x =? y)%N && str_eqb a' b'
  | _, _ => false
  end.

(** [a <= b] on two [str]: lexicographic on code points. *)
Fixpoint str_leb (a b : pystr) : bool :=
  match a, b with
  | [], _ => true
  | _ :: _, [] => false
  | x :: a', y :: b' =>
    if (x <? y)%N then true
    else if (y <? x)%N then false
    else str_leb a' b'
  end.

(** [sep.join(parts)]. *)
Fixpoint join (sep : pystr) (parts : list pystr) : pystr :=
  match parts with
  | [] => []
  | [p] => p
  | p :: rest => p ++ sep ++ join sep rest
  end.

(** [Py_UNICODE_ISSPACE]: the code points [str.strip()] removes. *)
Definition isspace (c : codepoint) : bool :=
  ((9 <=? c) && (c <=? 13) || (28 <=? c) && (c <=? 32)
   || (c =? 133) || (c =? 160) || (c =? 5760)
   || (8192 <=? c) && (c <=? 8202)
   || (c =? 8232) || (c =? 8233) || (c =? 8239) || (c =? 8287)
   || (c =? 12288))%N.

Fixpoint lstrip (s : pystr) : pystr :=
  match s with
  | [] => []
  | c :: r => if isspace c then lstrip r else s
  end.

Definition rstrip (s : pystr) : pystr := rev (lstrip (rev s)).

(** [s.strip()]. *)
Definition strip (s : pystr) : pystr := rstrip (lstrip s).

(** [s.startswith(p)]. *)
Fixpoint startswith (p s : pystr) : bool :=
  match p, s with
  | [], _ => true
  | x :: p', y :: s' => (x =? y)%N && startswith p' s'
  | _ :: _, [] => false
  end.

(** [p in s] on two [str]: [p] occurs as a substring of [s]. *)
Fixpoint substring (p s : pystr) : bool :=
  startswith p s ||
  match s with
  | [] => false
  | _ :: s' => substring p s'
  end.

(** [str(n)] for an [int]. *)
Definition str_of_int (n : Z) : pystr :=
  py (NilZero.string_of_int (Z.to_int n)).

End PyStr.
Import PyStr.

(** [sorted] on a list of [str] is a stable merge sort under [<=]; the
    Standard Library's merge sort is instantiated at that order. *)
Module StrOrder <: TotalLeBool.
Definition t := pystr.
Definition leb := str_leb.
Lemma leb_total : forall a b, leb a b = true \/ leb b a = true.
Proof.
  unfold leb. induction a as [|x a IH]; intros [|y b]; simpl; auto.
  destruct (N.ltb_spec x y); auto.
  destruct (N.ltb_spec y x); auto.
Qed.
End StrOrder.

Module StrSort := Sort StrOrder.

Definition sorted (l : list pystr) : list pystr := StrSort.sort l.

Definition str_le (a b : pystr) : Prop := str_leb a b = true.

Definition str_dec : forall a b : pystr, {a = b} + {a <> b} :=
  list_eq_dec N.eq_dec.

(* ================================================================== *)
(** * Exceptions and effects *)
(* ================================================================== *)

(** The exceptions the modelled code can meet.  [Foreign] stands for an
    exception raised by a collaborator outside the repository (the model
    API, the tool session, the evaluated payload), named by its class. *)
Inductive exn :=
| KeyError (key : pystr)
| TypeError
| AttributeError
| IndexError
| Foreign (class : pystr).

(** How a computation ends: it returns, it raises, or it has not come
    to an end as far as it is followed ([Unfinished]: a call that never
    returns, a loop that a payload keeps extending). *)
Inductive res (A : Type) :=
| Ok (a : A)
| Raise (e : exn)
| Unfinished.
Arguments Ok {A} a.
Arguments Raise {A} e.
Arguments Unfinished {A}.

Definition rbind {A B} (r : res A) (k : A -> res B) : res B :=
  match r with
  | Ok a => k a
  | Raise e => Raise e
  | Unfinished => Unfinished
  end.

(** A computation over an outside world [S]: an exception leaves the
    effects made so far in place. *)
Definition M (S A : Type) := S -> res A * S.

Definition ret {S A} (a : A) : M S A := fun s => (Ok a, s).

Definition lift {S A} (r : res A) : M S A := fun s => (r, s).

Definition bind {S A B} (c : M S A) (k : A -> M S B) : M S B :=
  fun s =>
    match c s with
    | (Ok a, s') => k a s'
    | (Raise e, s') => (Raise e, s')
    | (Unfinished, s') => (Unfinished, s')
    end.

Declare Scope py_scope.
Delimit Scope py_scope with py.
Notation "'let?' x ':=' r 'in' k" := (rbind r (fun x => k))
  (at level 10, x name, r at level 100, k at level 200) : py_scope.
Notation "x <- c ;; k" := (bind c (fun x => k))
  (at level 100, c at next level, right associativity) : py_scope.
Notation "' pat <- c ;; k" := (bind c (fun pat => k))
  (at level 100, pat pattern, c at next level, right associativity) : py_scope.
Open Scope py_scope.

(** [[f(x) for x in xs]] where [f] may raise: the first failure wins. *)
Fixpoint map_res {A B} (f : A -> res B) (xs : list A) : res (list B) :=
  match xs with
  | [] => Ok []
  | x :: rest =>
    let? y := f x in
    let? ys := map_res f rest in
    Ok (y :: ys)
  end.

(* ================================================================== *)
(** * weather.py *)
(* ================================================================== *)

Module Weather.

(** ** Static reference tables *)

Definition NWS_API_BASE : pystr := py "https://api.weather.gov".

Definition SOUTH_AMERICAN_CAPITALS : list (pystr * pystr) :=
  [ (py "Argentina", py "Buenos Aires");
    (py "Bolivia", py "La Paz");
    (py "Brasil", py "Brasília");
    (py "Chile", py "Santiago");
    (py "Colômbia", py "Bogotá");
    (py "Equador", py "Quito");
    (py "Guiana", py "Georgetown");
    (py "Guiana Francesa", py "Caiena");
    (py "Paraguai", py "Assunção");
    (py "Peru", py "Lima");
    (py "Suriname", py "Paramaribo");
    (py "Uruguai", py "Montevidéu");
    (py "Venezuela", py "Caracas") ].

Definition US_STATE_CAPITALS : list (pystr * pystr) :=
  [ (py "AL", py "Montgomery"); (py "AK", py "Juneau");
    (py "AZ", py "Phoenix"); (py "AR", py "Little Rock");
    (py "CA", py "Sacramento"); (py "CO", py "Denver");
    (py "CT", py "Hartford"); (py "DE", py "Dover");
    (py "FL", py "Tallahassee"); (py "GA", py "Atlanta");
    (py "HI", py "Honolulu"); (py "ID", py "Boise");
    (py "IL", py "Springfield"); (py "IN", py "Indianapolis");
    (py "IA", py "Des Moines"); (py "KS", py "Topeka");
    (py "KY", py "Frankfort"); (py "LA", py "Baton Rouge");
    (py "ME", py "Augusta"); (py "MD", py "Annapolis");
    (py "MA", py "Boston"); (py "MI", py "Lansing");
    (py "MN", py "Saint Paul"); (py "MS", py "Jackson");
    (py "MO", py "Jefferson City"); (py "MT", py "Helena");
    (py "NE", py "Lincoln"); (py "NV", py "Carson City");
    (py "NH", py "Concord"); (py "NJ", py "Trenton");
    (py "NM", py "Santa Fe"); (py "NY", py "Albany");
    (py "NC", py "Raleigh"); (py "ND", py "Bismarck");
    (py "OH", py "Columbus"); (py "OK", py "Oklahoma City");
    (py "OR", py "Salem"); (py "PA", py "Harrisburg");
    (py "RI", py "Providence"); (py "SC", py "Columbia");
    (py "SD", py "Pierre"); (py "TN", py "Nashville");
    (py "TX", py "Austin"); (py "UT", py "Salt Lake City");
    (py "VT", py "Montpelier"); (py "VA", py "Richmond");
    (py "WA", py "Olympia"); (py "WV", py "Charleston");
    (py "WI", py "Madison"); (py "WY", py "Cheyenne") ].

(** ** [dict] with [str] keys, in insertion order *)

Fixpoint dict_lookup {A} (d : list (pystr * A)) (k : pystr) : option A :=
  match d with
  | [] => None
  | (k', v) :: rest => if str_eqb k' k then Some v else dict_lookup rest k
  end.

(** [k in d]. *)
Definition dict_contains {A} (d : list (pystr * A)) (k : pystr) : bool :=
  match dict_lookup d k with
  | Some _ => true
  | None => false
  end.

(** [d[k]]. *)
Definition dict_getitem {A} (d : list (pystr * A)) (k : pystr) : res A :=
  match dict_lookup d k with
  | Some v => Ok v
  | None => Raise (KeyError k)
  end.

(** [d.keys()]. *)
Definition dict_keys {A} (d : list (pystr * A)) : list pystr := map fst d.

(** ** The pure lookup tools *)

Section Lookup.

(** [str.upper] and [str.title] read the Unicode character database. *)
Variables str_upper str_title : pystr -> pystr.

Definition get_south_american_capital (country : pystr) : res pystr :=
  let country := str_title (strip country) in
  if negb (dict_contains SOUTH_AMERICAN_CAPITALS country) then
    Ok (py "País não encontrado. Países disponíveis: "
        ++ join (py ", ") (sorted (dict_keys SOUTH_AMERICAN_CAPITALS)))
  else
    let? capital := dict_getitem SOUTH_AMERICAN_CAPITALS country in
    Ok (py "A capital de " ++ country ++ py " é " ++ capital).

Definition get_us_state_capital (state : pystr) : res pystr :=
  let state := str_upper (strip state) in
  if negb (dict_contains US_STATE_CAPITALS state) then
    Ok (py "Estado não encontrado. Estados disponíveis: "
        ++ join (py ", ") (sorted (dict_keys US_STATE_CAPITALS)))
  else
    let? capital := dict_getitem US_STATE_CAPITALS state in
    Ok (py "A capital de " ++ state ++ py " é " ++ capital).

End Lookup.

(** ** Decoded JSON documents

    What [response.json()] returns: [None], [bool], [int], [float], [str],
    [list] or [dict] with [str] keys.  Floats stay abstract: the code
    only tests them for truth and prints them. *)

Section Network.

Variable float : Type.
Variable float_truthy : float -> bool.
Variable float_repr : float -> pystr.
(** [repr] of a [str] (quoting and escapes), used inside containers. *)
Variable str_repr : pystr -> pystr.

Inductive json :=
| JNull
| JBool (b : bool)
| JInt (n : Z)
| JFloat (x : float)
| JStr (s : pystr)
| JList (items : list json)
| JDict (fields : list (pystr * json)).

(** [bool(v)], as tested by [not v]. *)
Definition truthy (v : json) : bool :=
  match v with
  | JNull => false
  | JBool b => b
  | JInt n => negb (n =? 0)%Z
  | JFloat x => float_truthy x
  | JStr s => match s with [] => false | _ => true end
  | JList l => match l with [] => false | _ => true end
  | JDict d => match d with [] => false | _ => true end
  end.

(** [k in v] for a [str] key: key membership in a [dict], element
    membership in a [list], substring test in a [str], [TypeError] on a
    value that is no container. *)
Definition contains (k : pystr) (v : json) : res bool :=
  match v with
  | JDict d => Ok (dict_contains d k)
  | JList l =>
    Ok (existsb (fun x => match x with JStr s => str_eqb s k | _ => false end) l)
  | JStr s => Ok (substring k s)
  | _ => Raise TypeError
  end.

(** [v[k]] for a [str] key: only a [dict] accepts it. *)
Definition getitem (v : json) (k : pystr) : res json :=
  match v with
  | JDict d => dict_getitem d k
  | _ => Raise TypeError
  end.

(** [v.get(k, default)]: a [dict] method. *)
Definition get_default (v : json) (k default : pystr) : res json :=
  match v with
  | JDict d =>
    Ok match dict_lookup d k with
       | Some x => x
       | None => JStr default
       end
  | _ => Raise AttributeError
  end.

(** [v[:5]]: sequences only (a [dict] raises as well, [TypeError] up to
    Python 3.11). *)
Definition slice5 (v : json) : res json :=
  match v with
  | JList l => Ok (JList (firstn 5 l))
  | JStr s => Ok (JStr (firstn 5 s))
  | _ => Raise TypeError
  end.

(** [for x in v]: the items of a [list], the characters of a [str], the
    keys of a [dict]. *)
Definition iter (v : json) : res (list json) :=
  match v with
  | JList l => Ok l
  | JStr s => Ok (map (fun c => JStr [c]) s)
  | JDict d => Ok (map JStr (dict_keys d))
  | _ => Raise TypeError
  end.

Fixpoint repr (v : json) : pystr :=
  match v with
  | JNull => py "None"
  | JBool true => py "True"
  | JBool false => py "False"
  | JInt n => str_of_int n
  | JFloat x => float_repr x
  | JStr s => str_repr s
  | JList l => py "[" ++ join (py ", ") (map repr l) ++ py "]"
  | JDict d =>
    py "{"
    ++ join (py ", ")
         (map (fun kv => match kv with
                         | (k, x) => str_repr k ++ py ": " ++ repr x
                         end) d)
    ++ py "}"
  end.

(** [{v}] in an f-string: [str(v)]. *)
Definition fmt (v : json) : pystr :=
  match v with
  | JStr s => s
  | _ => repr v
  end.

(** ** The HTTP boundary *)

(** What one [client.get] followed by [raise_for_status] and [json]
    can meet.  [RequestFailed]: [client.get] raised (the 30 s timeout, a
    connection error, a URL it cannot use).  [Response status body]: a
    response arrived; [body] is what [response.json()] decodes, [None]
    when the body is not JSON and [json()] raises. *)
Inductive http_outcome :=
| RequestFailed
| Response (status : Z) (body : option json).

(** The network, and one GET on it with the headers and the timeout
    that [make_nws_request] sets. *)
Variable net : Type.
Variable http_get : pystr -> net -> http_outcome * net.

(** [raise_for_status] lets through the 2xx codes only. *)
Definition is_success (status : Z) : bool :=
  ((200 <=? status) && (status <=? 299))%Z.

(** The fetches that end in [except Exception: return None]: no
    response, a status outside 2xx, a body that is not JSON. *)
Definition fetch_fails (outcome : http_outcome) : bool :=
  match outcome with
  | RequestFailed => true
  | Response status body =>
    negb (is_success status)
    || match body with Some _ => false | None => true end
  end.

(** Returns the decoded body, or [None] from the [except] branch.  The
    forecast URL is read out of a payload, so the argument is any JSON
    value: on one that is not a [str] [client.get] raises inside the
    [try], before any request is sent. *)
Definition make_nws_request (url : json) : M net json :=
  fun n =>
    match url with
    | JStr u =>
      let (outcome, n') := http_get u n in
      match outcome with
      | RequestFailed => (Ok JNull, n')
      | Response status body =>
        if is_success status then
          match body with
          | Some data => (Ok data, n')
          | None => (Ok JNull, n')
          end
        else (Ok JNull, n')
      end
    | _ => (Ok JNull, n)
    end.

Definition nl : pystr := [10%N].

Definition format_alert (feature : json) : res pystr :=
  let? props := getitem feature (py "properties") in
  let? event := get_default props (py "event") (py "Unknown") in
  let? area := get_default props (py "areaDesc") (py "Unknown") in
  let? severity := get_default props (py "severity") (py "Unknown") in
  let? description :=
    get_default props (py "description") (py "No description available") in
  let? instruction :=
    get_default props (py "instruction")
      (py "No specific instructions provided") in
  Ok (nl ++ py "Event: " ++ fmt event ++ nl
      ++ py "Area: " ++ fmt area ++ nl
      ++ py "Severity: " ++ fmt severity ++ nl
      ++ py "Description: " ++ fmt description ++ nl
      ++ py "Instructions: " ++ fmt instruction ++ nl).

Definition separator : pystr := nl ++ py "---" ++ nl.

(** [f"{NWS_API_BASE}/alerts/active/area/{state}"]. *)
Definition alerts_url (state : pystr) : pystr :=
  NWS_API_BASE ++ py "/alerts/active/area/" ++ state.

(** [f"{NWS_API_BASE}/points/{latitude},{longitude}"]. *)
Definition points_url (latitude longitude : float) : pystr :=
  NWS_API_BASE ++ py "/points/" ++ float_repr latitude
  ++ py "," ++ float_repr longitude.

Definition get_alerts (state : pystr) : M net pystr :=
  let url := alerts_url state in
  data <- make_nws_request (JStr url) ;;
  absent <- lift (if negb (truthy data) then Ok true
                  else let? present := contains (py "features") data in
                       Ok (negb present)) ;;
  if (absent : bool) then ret (py "Unable to fetch alerts or no alerts found.")
  else
    features <- lift (getitem data (py "features")) ;;
    if negb (truthy features) then ret (py "No active alerts for this state.")
    else
      items <- lift (iter features) ;;
      alerts <- lift (map_res format_alert items) ;;
      ret (join separator alerts).

(** The body of the loop over [periods[:5]]: one formatted period. *)
Definition format_period (period : json) : res pystr :=
  let? name := getitem period (py "name") in
  let? temperature := getitem period (py "temperature") in
  let? unit := getitem period (py "temperatureUnit") in
  let? speed := getitem period (py "windSpeed") in
  let? direction := getitem period (py "windDirection") in
  let? detailed := getitem period (py "detailedForecast") in
  Ok (nl ++ fmt name ++ py ":" ++ nl
      ++ py "Temperature: " ++ fmt temperature ++ py "°" ++ fmt unit ++ nl
      ++ py "Wind: " ++ fmt speed ++ py " " ++ fmt direction ++ nl
      ++ py "Forecast: " ++ fmt detailed ++ nl).

Definition get_forecast (latitude longitude : float) : M net pystr :=
  let points_url := points_url latitude longitude in
  points_data <- make_nws_request (JStr points_url) ;;
  if negb (truthy points_data) then
    ret (py "Unable to fetch forecast data for this location.")
  else
    properties <- lift (getitem points_data (py "properties")) ;;
    forecast_url <- lift (getitem properties (py "forecast")) ;;
    forecast_data <- make_nws_request forecast_url ;;
    if negb (truthy forecast_data) then
      ret (py "Unable to fetch detailed forecast.")
    else
      properties <- lift (getitem forecast_data (py "properties")) ;;
      periods <- lift (getitem properties (py "periods")) ;;
      shown <- lift (slice5 periods) ;;
      items <- lift (iter shown) ;;
      forecasts <- lift (map_res format_period items) ;;
      ret (join separator forecasts).

End Network.

Arguments JNull {float}.
Arguments JBool {float} b.
Arguments JInt {float} n.
Arguments JFloat {float} x.
Arguments JStr {float} s.
Arguments JList {float} items.
Arguments JDict {float} fields.
Arguments RequestFailed {float}.
Arguments Response {float} status body.

End Weather.

(* ================================================================== *)
(** * client.py *)
(* ================================================================== *)

Module Client.

Section ProcessQuery.

(** ** What the client exchanges with its collaborators *)

(** A tool's [inputSchema], an object [eval] returns, the [content] of a
    tool result: the client passes them on and never looks inside. *)
Variables schema pyobj tool_content : Type.

(** A tool as [session.list_tools()] describes it. *)
Record tool := {
  tool_name : pystr;
  tool_description : option pystr;
  tool_inputSchema : schema }.

(** An entry of [available_tools]. *)
Record available_tool := {
  name : pystr;
  description : option pystr;
  input_schema : schema }.

(** An entry of the [tools] argument of the model call:
    [{"type": "function", "function": {...}}]. *)
Record function_tool := {
  fn_name : pystr;
  fn_description : option pystr;
  fn_parameters : schema }.

(** [tool_call.id], [tool_call.function.name],
    [tool_call.function.arguments]. *)
Record tool_call := {
  id : pystr;
  function_name : pystr;
  function_arguments : pystr }.

(** [response.choices[i].message]. *)
Record chat_message := {
  content : option pystr;
  tool_calls : option (list tool_call) }.

(** The entries of [messages]. *)
Inductive message :=
| UserMessage (text : pystr)
| AssistantMessage (m : chat_message)
| ToolMessage (tool_call_id : pystr) (tool : pystr) (result : tool_content).

(** ** The frame of [process_query]

    The objects that the locals of [process_query] name while the [for]
    loop runs, each with what it holds: the lists [messages],
    [final_text] and [available_tools], the list
    [assistant_message.tool_calls] that the [for] statement iterates,
    and the [tool_call] of the iteration under way.  The loop appends to
    the first two; all of them are within reach of the payload that
    [eval] runs in this frame, and of whatever that payload has left
    behind to run in a later call.  The assistant message among
    [messages] is the object whose [tool_calls] the loop iterates: a
    frame holds the two as they stand.  From the first [eval] on, each
    call to the outside that the loop makes can leave these objects
    changed. *)
Record frame := {
  frame_messages : list message;
  frame_final_text : list (option pystr);
  frame_tool_calls : list tool_call;
  frame_available_tools : list available_tool;
  frame_tool_call : tool_call }.

Definition bind_tool_call (call : tool_call) (f : frame) : frame :=
  {| frame_messages := frame_messages f;
     frame_final_text := frame_final_text f;
     frame_tool_calls := frame_tool_calls f;
     frame_available_tools := frame_available_tools f;
     frame_tool_call := call |}.

(** [final_text.append(item)]. *)
Definition final_text_append (item : option pystr) (f : frame) : frame :=
  {| frame_messages := frame_messages f;
     frame_final_text := frame_final_text f ++ [item];
     frame_tool_calls := frame_tool_calls f;
     frame_available_tools := frame_available_tools f;
     frame_tool_call := frame_tool_call f |}.

(** [messages.append(item)]. *)
Definition messages_append (item : message) (f : frame) : frame :=
  {| frame_messages := frame_messages f ++ [item];
     frame_final_text := frame_final_text f;
     frame_tool_calls := frame_tool_calls f;
     frame_available_tools := frame_available_tools f;
     frame_tool_call := frame_tool_call f |}.

(** ** The outside world *)

Variable world : Type.

(** [self.session.list_tools()], giving [response.tools]. *)
Variable list_tools : M world (list tool).
(** [self.openai.chat.completions.create(model, messages, tools)], giving
    the messages of [response.choices]. *)
Variable chat_completions_create :
  pystr -> list message -> list function_tool -> M world (list chat_message).
(** The built-in [eval] on a source string. *)
Variable py_eval : pystr -> M world pyobj.
(** [self.session.call_tool(name, args)], giving [result.content]. *)
Variable call_tool : pystr -> pyobj -> M world tool_content.
(** [str(tool_args)], as the f-string asks for it: the object that a
    payload evaluates to brings its own [__str__]. *)
Variable obj_str : pyobj -> M world pystr.

(** The calls [process_query] makes to the outside, in the order made;
    a model call is recorded with the conversation it sends.
    [FrameChanged] follows a call that has changed an object of the
    frame. *)
Inductive event :=
| ListTools
| ModelCall (model : pystr) (messages : list message)
| Eval (payload : pystr)
| CallTool (tool : pystr) (args : pyobj)
| Format (args : pyobj)
| FrameChanged.

(** [reach e w f]: what the call [e], made from the frame [f] and
    returning with the world as [w], has done to the objects of the
    frame; [None] when it has left them alone. *)
Variable reach : event -> world -> frame -> option frame.

Record state := {
  outside : world;
  trace : list event }.

Definition outside_call {A} (e : event) (c : M world A) : M state A :=
  fun st =>
    let (r, w) := c (outside st) in
    (r, {| outside := w; trace := trace st ++ [e] |}).

(** A call to the outside made inside the loop: its result, and the
    frame as the loop finds it afterwards. *)
Definition frame_call {A} (e : event) (c : M world A) (f : frame)
  : M state (A * frame) :=
  fun st =>
    let (r, w) := c (outside st) in
    match r with
    | Ok a =>
      match reach e w f with
      | Some f' =>
        (Ok (a, f'),
         {| outside := w; trace := trace st ++ [e; FrameChanged] |})
      | None => (Ok (a, f), {| outside := w; trace := trace st ++ [e] |})
      end
    | Raise x => (Raise x, {| outside := w; trace := trace st ++ [e] |})
    | Unfinished => (Unfinished, {| outside := w; trace := trace st ++ [e] |})
    end.

(** ** [MCPClient.process_query] *)

Definition function_tools (available_tools : list available_tool)
  : list function_tool :=
  map (fun tool => {| fn_name := name tool;
                      fn_description := description tool;
                      fn_parameters := input_schema tool |})
      available_tools.

Definition create (model : pystr) (messages : list message)
    (available_tools : list available_tool) : M state (list chat_message) :=
  outside_call (ModelCall model messages)
    (chat_completions_create model messages (function_tools available_tools)).

(** [response.choices[0].message]. *)
Definition first_choice (choices : list chat_message) : res chat_message :=
  match choices with
  | m :: _ => Ok m
  | [] => Raise IndexError
  end.

(** ["\n".join(final_text)]: every item has to be a [str]. *)
Fixpoint all_text (items : list (option pystr)) : res (list pystr) :=
  match items with
  | [] => Ok []
  | Some t :: rest => let? ts := all_text rest in Ok (t :: ts)
  | None :: _ => Raise TypeError
  end.

Definition join_lines (final_text : list (option pystr)) : res pystr :=
  let? lines := all_text final_text in
  Ok (join [10%N] lines).

(** [f"[Calling tool {tool_name} with args {tool_args}]"], with
    [tool_args] as [str] has shown it. *)
Definition calling_line (tool_name shown : pystr) : pystr :=
  py "[Calling tool " ++ tool_name ++ py " with args " ++ shown ++ py "]".

(** The body of the [for] loop, for the [tool_call] that the iterator
    hands out.  The name of the tool and the payload are read before
    [eval] runs, [tool_call.id] after [str] has returned. *)
Definition tool_round (tool_call : tool_call) (f : frame) : M state frame :=
  let f := bind_tool_call tool_call f in
  let tool_name := function_name tool_call in
  ' (tool_args, f) <-
    frame_call (Eval (function_arguments tool_call))
      (py_eval (function_arguments tool_call)) f ;;
  ' (result, f) <-
    frame_call (CallTool tool_name tool_args)
      (call_tool tool_name tool_args) f ;;
  ' (shown, f) <- frame_call (Format tool_args) (obj_str tool_args) f ;;
  let f := final_text_append (Some (calling_line tool_name shown)) f in
  let f :=
    messages_append
      (ToolMessage (id (frame_tool_call f)) tool_name result) f in
  ' (response, f) <-
    frame_call (ModelCall (py "gpt-4-turbo-preview") (frame_messages f))
      (chat_completions_create (py "gpt-4-turbo-preview")
         (frame_messages f) (function_tools (frame_available_tools f)))
      f ;;
  next <- lift (first_choice response) ;;
  ret (final_text_append (content next) f).

(** The [for tool_call in assistant_message.tool_calls] loop.  The list
    iterator keeps an index into the list and stops when the index is
    past its end, so what the list holds is read anew at every
    iteration.  A payload that makes the list longer each time keeps the
    loop going for ever: [fuel] bounds the iterations that are followed,
    and the loop is [Unfinished] when one more is due beyond them. *)
Fixpoint tool_loop (fuel index : nat) (f : frame) : M state frame :=
  match nth_error (frame_tool_calls f) index with
  | None => ret f
  | Some tool_call =>
    match fuel with
    | O => lift Unfinished
    | S fuel =>
      f <- tool_round tool_call f ;;
      tool_loop fuel (S index) f
    end
  end.

(** [if assistant_message.tool_calls:] is false on [None] and on []. *)
Definition requested_calls (m : chat_message) : list tool_call :=
  match tool_calls m with
  | Some calls => calls
  | None => []
  end.

(** The body of [process_query]; besides the text it returns, the local
    list [messages] as the body leaves it. *)
Definition process_query_body (fuel : nat) (query : pystr)
  : M state (list message * pystr) :=
  let messages := [UserMessage query] in
  response <- outside_call ListTools list_tools ;;
  let available_tools :=
    map (fun tool => {| name := tool_name tool;
                        description := tool_description tool;
                        input_schema := tool_inputSchema tool |})
        response in
  response <- create (py "gpt-4o-mini") messages available_tools ;;
  assistant_message <- lift (first_choice response) ;;
  let messages := messages ++ [AssistantMessage assistant_message] in
  filled <-
    match requested_calls assistant_message with
    | [] => ret (messages, [content assistant_message])
    | (tool_call :: _) as calls =>
      f <- tool_loop fuel 0
             {| frame_messages := messages;
                frame_final_text := [];
                frame_tool_calls := calls;
                frame_available_tools := available_tools;
                frame_tool_call := tool_call |} ;;
      ret (frame_messages f, frame_final_text f)
    end ;;
  text <- lift (join_lines (snd filled)) ;;
  ret (fst filled, text).

Definition process_query (fuel : nat) (query : pystr) : M state pystr :=
  done <- process_query_body fuel query ;;
  ret (snd done).

(** ** Reading a run *)

(** The conversations sent to the model, one per model call, in order. *)
Fixpoint model_calls (events : list event) : list (list message) :=
  match events with
  | [] => []
  | ModelCall _ messages :: rest => messages :: model_calls rest
  | _ :: rest => model_calls rest
  end.

(** How many calls have changed the frame. *)
Fixpoint frame_changes (events : list event) : nat :=
  match events with
  | [] => 0
  | FrameChanged :: rest => S (frame_changes rest)
  | _ :: rest => frame_changes rest
  end.

(** The tool calls that the assistant messages of a conversation emit. *)
Definition emitted_calls (conversation : list message) : list tool_call :=
  flat_map (fun m => match m with
                     | AssistantMessage a => requested_calls a
                     | _ => []
                     end) conversation.

(** A tool-result message answers a tool call when it carries its
    identifier. *)
Definition answers (call : tool_call) (m : message) : bool :=
  match m with
  | ToolMessage tool_call_id _ _ => str_eqb tool_call_id (id call)
  | _ => false
  end.

Definition answer_count (conversation : list message) (call : tool_call)
  : nat :=
  length (filter (answers call) conversation).

(** Every emitted tool call has exactly one answer in the conversation. *)
Definition all_answered_once (conversation : list message) : bool :=
  forallb (fun call => Nat.eqb (answer_count conversation call) 1)
          (emitted_calls conversation).

Definition is_tool_message (m : message) : bool :=
  match m with
  | ToolMessage _ _ _ => true
  | _ => false
  end.

(** The tool-result message that answers [call] with [result]. *)
Definition tool_result (call : tool_call) (result : tool_content) : message :=
  ToolMessage (id call) (function_name call) result.

(** One pass through the body of the loop, when nothing raises: the tool
    call, what its payload evaluated to, what the tool returned, how
    [str] showed the arguments, and the text of the model's reply that
    the pass ends with. *)
Record round := {
  round_call : tool_call;
  round_args : pyobj;
  round_result : tool_content;
  round_shown : pystr;
  round_reply : option pystr }.

Definition round_message (r : round) : message :=
  tool_result (round_call r) (round_result r).

(** The two entries a round appends to [final_text]. *)
Definition round_text (r : round) : list (option pystr) :=
  [ Some (calling_line (function_name (round_call r)) (round_shown r));
    round_reply r ].

(** The calls to the outside made by a sequence of rounds that starts
    with the conversation [base]. *)
Fixpoint loop_events (base : list message) (rounds : list round)
  : list event :=
  match rounds with
  | [] => []
  | r :: rest =>
    let base' := base ++ [round_message r] in
    [ Eval (function_arguments (round_call r));
      CallTool (function_name (round_call r)) (round_args r);
      Format (round_args r);
      ModelCall (py "gpt-4-turbo-preview") base' ]
    ++ loop_events base' rest
  end.


(** What [final_text] holds after the branch on [tool_calls]. *)
Definition run_text (m : chat_message) (rounds : list round)
  : list (option pystr) :=
  match rounds with
  | [] => [content m]
  | _ => flat_map round_text rounds
  end.

End ProcessQuery.

Arguments UserMessage {tool_content} text.
Arguments AssistantMessage {tool_content} m.
Arguments ListTools {pyobj tool_content}.
Arguments ModelCall {pyobj tool_content} model messages.
Arguments Eval {pyobj tool_content} payload.
Arguments CallTool {pyobj tool_content} tool args.
Arguments Format {pyobj tool_content} args.
Arguments FrameChanged {pyobj tool_content}.

End Client.

(* ================================================================== *)
(** * Concrete collaborators, to run the code on examples *)
(* ================================================================== *)

(** [str.upper] and [str.title] on Basic Latin and the Latin-1 Supplement,
    the range the two tables are written in.  The Unicode case tables
    for code points from 256 on are not included: such characters pass
    unchanged here, and this instance is used to run examples only. *)
Module Latin1.

Definition is_upper (c : codepoint) : bool :=
  ((65 <=? c) && (c <=? 90)
   || (192 <=? c) && (c <=? 222) && negb (c =? 215))%N.

Definition is_lower (c : codepoint) : bool :=
  ((97 <=? c) && (c <=? 122)
   || (224 <=? c) && (c <=? 254) && negb (c =? 247))%N.

Definition toupper (c : codepoint) : pystr :=
  if is_lower c then [(c - 32)%N]
  else if (c =? 223)%N then [83%N; 83%N]
  else if (c =? 255)%N then [376%N]
  else if (c =? 181)%N then [924%N]
  else [c].

Definition totitle (c : codepoint) : pystr :=
  if (c =? 223)%N then [83%N; 115%N] else toupper c.

Definition tolower (c : codepoint) : pystr :=
  if is_upper c then [(c + 32)%N] else [c].

Definition iscased (c : codepoint) : bool :=
  (is_upper c || is_lower c
   || (c =? 170) || (c =? 181) || (c =? 186) || (c =? 223) || (c =? 255))%N.

Definition upper (s : pystr) : pystr := flat_map toupper s.

Fixpoint title_from (previous_is_cased : bool) (s : pystr) : pystr :=
  match s with
  | [] => []
  | c :: r =>
    (if previous_is_cased then tolower c else totitle c)
    ++ title_from (iscased c) r
  end.

Definition title (s : pystr) : pystr := title_from false s.

End Latin1.

(** A network that answers from a script: each request consumes the next
    outcome, and fails once the script is used up.  Floats are the whole
    numbers, printed as Python prints them below 1e16. *)
Module ScriptedNet.

Definition float := Z.
Definition float_truthy (x : float) : bool := negb (x =? 0)%Z.
Definition float_repr (x : float) : pystr := str_of_int x ++ py ".0".
(** [repr] of a [str] that needs no escape. *)
Definition str_repr (s : pystr) : pystr := py "'" ++ s ++ py "'".

Definition json := Weather.json float.
Definition net := list (Weather.http_outcome float).

Definition http_get (url : pystr) (n : net)
  : Weather.http_outcome float * net :=
  match n with
  | outcome :: rest => (outcome, rest)
  | [] => (Weather.RequestFailed, [])
  end.

Definition get_alerts : pystr -> M net pystr :=
  Weather.get_alerts float_truthy float_repr str_repr http_get.

Definition get_forecast : float -> float -> M net pystr :=
  Weather.get_forecast float_truthy float_repr str_repr http_get.

(** A points payload and a forecast payload of seven periods. *)
Definition sample_points : json :=
  Weather.JDict [(py "properties",
          Weather.JDict [(py "forecast",
                  Weather.JStr (py "https://api.weather.gov/gridpoints/TOP/31,80/forecast"))])].

Definition sample_period (name : string) (temperature : Z) : json :=
  Weather.JDict [ (py "name", Weather.JStr (py name));
          (py "temperature", Weather.JInt temperature);
          (py "temperatureUnit", Weather.JStr (py "F"));
          (py "windSpeed", Weather.JStr (py "5 mph"));
          (py "windDirection", Weather.JStr (py "S"));
          (py "detailedForecast", Weather.JStr (py "Clear.")) ].

Definition sample_periods : list json :=
  [ sample_period "Today" 71; sample_period "Tonight" 52;
    sample_period "Monday" 73; sample_period "Monday Night" 54;
    sample_period "Tuesday" 75; sample_period "Tuesday Night" 56;
    sample_period "Wednesday" 77 ].

Definition sample_forecast : json :=
  Weather.JDict [(py "properties", Weather.JDict [(py "periods", Weather.JList sample_periods)])].

End ScriptedNet.

(** A model that answers from a script: each model call consumes the
    next reply.  One tool is on offer; nothing is run in the script:
    its evaluator hands the payload back as text, and a tool call
    answers with a fixed text naming the tool. *)
Module ScriptedChat.

Definition world := list (list Client.chat_message).

Definition list_tools : M world (list (Client.tool unit)) :=
  ret [ {| Client.tool_name := py "get_alerts";
           Client.tool_description := Some (py "Get weather alerts for a US state.");
           Client.tool_inputSchema := tt |} ].

Definition chat_completions_create (model : pystr)
    (messages : list (Client.message pystr))
    (tools : list (Client.function_tool unit))
  : M world (list Client.chat_message) :=
  fun w =>
    match w with
    | reply :: rest => (Ok reply, rest)
    | [] => (Raise (Foreign (py "APIError")), [])
    end.

Definition py_eval (payload : pystr) : M world pystr := ret payload.

Definition call_tool (tool : pystr) (args : pystr) : M world pystr :=
  ret (py "result of " ++ tool).

Definition start (script : world) : Client.state pystr pystr world :=
  {| Client.outside := script; Client.trace := [] |}.

Definition obj_str (args : pystr) : M world pystr := ret args.

(** Nothing in the script touches the frame. *)
Definition reach (e : Client.event pystr pystr) (w : world)
    (f : Client.frame unit pystr) : option (Client.frame unit pystr) :=
  None.

(** More iterations than any script here asks for. *)
Definition fuel : nat := 8.

Definition process_query_body :=
  Client.process_query_body list_tools chat_completions_create
    py_eval call_tool obj_str reach fuel.

Definition process_query :=
  Client.process_query list_tools chat_completions_create
    py_eval call_tool obj_str reach fuel.

(** A reply of plain text, and a reply that requests tool calls. *)
Definition says (text : pystr) : Client.chat_message :=
  {| Client.content := Some text; Client.tool_calls := None |}.

Definition requests (calls : list Client.tool_call) : Client.chat_message :=
  {| Client.content := None; Client.tool_calls := Some calls |}.

Definition call (id payload : pystr) : Client.tool_call :=
  {| Client.id := id;
     Client.function_name := py "get_alerts";
     Client.function_arguments := payload |}.

(** A reply that requests two tool calls, followed by two plain replies. *)
Definition call_1 : Client.tool_call := call (py "call_1") (py "{'state': 'CA'}").
Definition call_2 : Client.tool_call := call (py "call_2") (py "{'state': 'NY'}").

Definition two_calls : world :=
  [ [requests [call_1; call_2]];
    [says (py "first")];
    [says (py "second")] ].

Definition two_calls_run :=
  process_query_body (py "alerts?") (start two_calls).

(** A reply that requests one tool call whose argument payload is a
    Python expression with a call in it. *)
Definition crafted_payload : pystr := py "__import__('os').system('id')".

Definition crafted : world :=
  [ [requests [call (py "call_1") crafted_payload]];
    [says (py "done")] ].

Definition crafted_run :=
  process_query (py "alerts?") (start crafted).

End ScriptedChat.


(* ================================================================== *)
(** * client.py: start-up and the interactive loop *)
(* ================================================================== *)

Module Shell.

(** What the start-up code can raise: the [ValueError] it raises itself,
    or an exception that comes up from below. *)
Inductive raised :=
| ValueError (message : pystr)
| Exn (e : exn).

Inductive outcome (A : Type) :=
| Returned (a : A)
| Raised (r : raised)
| Hangs.
Arguments Returned {A} a.
Arguments Raised {A} r.
Arguments Hangs {A}.

(** [s.split(sep, 1)] for a separator of one character: [s] cut at the
    first [sep], or [s] alone when there is none. *)
Fixpoint split_once (sep : codepoint) (s : pystr) : list pystr :=
  match s with
  | [] => [[]]
  | c :: r =>
    if (c =? sep)%N then [[]; r]
    else match split_once sep r with
         | head :: tail => (c :: head) :: tail
         | [] => [[c]]
         end
  end.

(** [s.endswith(suffix)]. *)
Definition endswith (suffix s : pystr) : bool :=
  startswith (rev suffix) (rev s).

(** ** [MCPClient.__init__]

    The [for ... else] over the lines of [.env] (each as the file
    iterator gives it, with its line end): the value handed to
    [OpenAI(api_key=...)], or the [ValueError] of the [else]. *)
Fixpoint MCPClient_init (lines : list pystr) : outcome pystr :=
  match lines with
  | [] => Raised (ValueError (py "OPENAI_API_KEY not found in .env file"))
  | line :: rest =>
    if startswith (py "OPENAI_API_KEY=") line then
      match nth_error (split_once 61%N (strip line)) 1 with
      | Some api_key => Returned api_key
      | None => Raised (Exn IndexError)
      end
    else MCPClient_init rest
  end.

(** ** [MCPClient.connect_to_server] *)

Section Connect.

Variable world : Type.
(** Entering [stdio_client(StdioServerParameters(command, args, env=None))]. *)
Variable stdio_client : pystr -> list pystr -> M world unit.
(** Entering [ClientSession(self.stdio, self.write)]. *)
Variable client_session : M world unit.
(** [self.session.initialize()]. *)
Variable initialize : M world unit.
(** [self.session.list_tools()], giving the names of [response.tools]. *)
Variable list_tool_names : M world (list pystr).
(** [repr] of a [str], as [print] shows the items of a list. *)
Variable str_repr : pystr -> pystr.

(** What [connect_to_server] does to the outside, in the order done. *)
Inductive step :=
| StdioClient (command : pystr) (args : list pystr)
| ClientSession
| Initialize
| ListTools
| Print (text : pystr).

Record connection := {
  server : world;
  steps : list step }.

Definition outside_step {A} (e : step) (c : M world A) : M connection A :=
  fun st =>
    let (r, w) := c (server st) in
    (r, {| server := w; steps := steps st ++ [e] |}).

(** [print(a, b)] with a list of [str] for [b]. *)
Definition print_with_list (a : pystr) (items : list pystr) : M connection unit :=
  fun st =>
    (Ok tt,
     {| server := server st;
        steps := steps st
                 ++ [Print (a ++ py " " ++ py "["
                            ++ join (py ", ") (map str_repr items)
                            ++ py "]" ++ [10%N])] |}).

Definition connect_to_server (server_script_path : pystr)
  : connection -> outcome unit * connection :=
  fun st =>
    let is_python := endswith (py ".py") server_script_path in
    let is_js := endswith (py ".js") server_script_path in
    if negb (is_python || is_js) then
      (Raised (ValueError (py "Server script must be a .py or .js file")), st)
    else
      let command := if is_python then py "python" else py "node" in
      match
        (entered <- outside_step (StdioClient command [server_script_path])
                      (stdio_client command [server_script_path]) ;;
         session <- outside_step ClientSession client_session ;;
         ready <- outside_step Initialize initialize ;;
         tools <- outside_step ListTools list_tool_names ;;
         print_with_list ([10%N] ++ py "Connected to server with tools:") tools)
          st
      with
      | (Ok done, st') => (Returned done, st')
      | (Raise e, st') => (Raised (Exn e), st')
      | (Unfinished, st') => (Hangs, st')
      end.

End Connect.

Arguments ClientSession : clear implicits.
Arguments Initialize : clear implicits.
Arguments ListTools : clear implicits.

(** ** [MCPClient.chat_loop]

    The terminal is what each [input()] still to come does (it returns
    the line typed, it raises, or it never returns) and the chunks
    written so far.  At the end of the input [input()] raises
    [EOFError], every time it is called, and the loop reports it and
    asks again: a script of the terminal says so as often as it wants,
    and where the script is used up the loop is followed no further
    ([EndOfInput]). *)

Section ChatLoop.

(** The client, and [self.process_query] on it. *)
Variable session : Type.
Variable process_query : pystr -> M session pystr.
(** [str.lower] reads the Unicode character database. *)
Variable str_lower : pystr -> pystr.
(** [str(e)]. *)
Variable exn_str : exn -> pystr.
(** Whether the class of an exception from outside derives from
    [Exception]; [SystemExit], [KeyboardInterrupt] and
    [asyncio.CancelledError] do not. *)
Variable derives_Exception : pystr -> bool.

(** What [except Exception] catches: the built-in errors of [exn] all
    derive from [Exception]. *)
Definition is_Exception (e : exn) : bool :=
  match e with
  | Foreign class => derives_Exception class
  | KeyError _ | TypeError | AttributeError | IndexError => true
  end.

(** How the loop is left: by its [break], by an exception that the
    [except] clause lets through, or not at all, when a call never
    returns ([Stuck]) or as far as the script of the terminal goes
    ([EndOfInput]). *)
Inductive loop_end :=
| Quit
| Escaped (e : exn)
| Stuck
| EndOfInput.

Definition prompt : pystr := [10%N] ++ py "Query: ".

(** What [print(text)] writes. *)
Definition printed (text : pystr) : pystr := text ++ [10%N].

Definition is_quit (line : pystr) : bool :=
  str_eqb (str_lower (strip line)) (py "quit").

(** The [while True] loop: the end it comes to, the inputs left unread,
    the chunks written, the client. *)
Fixpoint chat_turns (inputs : list (res pystr)) (written : list pystr)
    (client : session)
  : loop_end * list (res pystr) * list pystr * session :=
  match inputs with
  | [] => (EndOfInput, [], written, client)
  | typed :: rest =>
    let written := written ++ [prompt] in
    let except (e : exn) (client : session) :=
      if is_Exception e then
        chat_turns rest
          (written ++ [printed ([10%N] ++ py "Error: " ++ exn_str e)]) client
      else (Escaped e, rest, written, client) in
    match typed with
    | Ok line =>
      let query := strip line in
      if str_eqb (str_lower query) (py "quit") then
        (Quit, rest, written, client)
      else
        match process_query query client with
        | (Ok response, client') =>
          chat_turns rest (written ++ [printed ([10%N] ++ response)]) client'
        | (Raise e, client') => except e client'
        | (Unfinished, client') => (Stuck, rest, written, client')
        end
    | Raise e => except e client
    | Unfinished => (Stuck, rest, written, client)
    end
  end.

Definition banner : list pystr :=
  [ printed ([10%N] ++ py "MCP Client Started!");
    printed (py "Type your queries or 'quit' to exit.") ].

Definition chat_loop (inputs : list (res pystr)) (client : session)
  : loop_end * list (res pystr) * list pystr * session :=
  chat_turns inputs banner client.

(** What the queries typed as [lines] get written, one after the other
    from [client] on: for each its prompt and then the answer, or the
    report of the exception it raised; and the client they leave.
    [None] when one of them does not come back into the loop. *)
Fixpoint answered (lines : list pystr) (client : session)
  : option (list pystr * session) :=
  match lines with
  | [] => Some ([], client)
  | line :: rest =>
    let reply (text : pystr) (client : session) :=
      match answered rest client with
      | Some (chunks, client') =>
        Some (prompt :: printed ([10%N] ++ text) :: chunks, client')
      | None => None
      end in
    match process_query (strip line) client with
    | (Ok response, client') => reply response client'
    | (Raise e, client') =>
      if is_Exception e then reply (py "Error: " ++ exn_str e) client'
      else None
    | (Unfinished, _) => None
    end
  end.

End ChatLoop.

End Shell.

(** Further readings of tables and runs. *)
Module Reading.

(** No [str] occurs twice. *)
Fixpoint distinct (l : list pystr) : bool :=
  match l with
  | [] => true
  | x :: rest => negb (existsb (str_eqb x) rest) && distinct rest
  end.

(** Every entry of a table is what a lookup of its key gives. *)
Definition entries_found (d : list (pystr * pystr)) : bool :=
  forallb (fun kv => match Weather.dict_lookup d (fst kv) with
                     | Some v => str_eqb v (snd kv)
                     | None => false
                     end) d.

(** The names of the tools called, in the order called. *)
Fixpoint called_tools {pyobj tool_content}
    (events : list (Client.event pyobj tool_content)) : list pystr :=
  match events with
  | [] => []
  | Client.CallTool tool _ :: rest => tool :: called_tools rest
  | _ :: rest => called_tools rest
  end.

End Reading.

(** More collaborators for the examples. *)
Module ScriptedShell.

(** [str.lower] on Basic Latin and the Latin-1 Supplement. *)
Definition lower (s : pystr) : pystr := flat_map Latin1.tolower s.

(** The class name stands for the message of an exception. *)
Definition exn_str (e : exn) : pystr :=
  match e with
  | KeyError key => py "KeyError"
  | TypeError => py "TypeError"
  | AttributeError => py "AttributeError"
  | IndexError => py "IndexError"
  | Foreign class => class
  end.

(** The classes that derive from [BaseException] and not from
    [Exception]. *)
Definition derives_Exception (class : pystr) : bool :=
  negb (existsb (str_eqb class)
          [ py "SystemExit"; py "KeyboardInterrupt"; py "GeneratorExit";
            py "CancelledError" ]).

Definition chat_loop :=
  Shell.chat_loop ScriptedChat.process_query lower exn_str derives_Exception.

(** A server that starts and offers one tool. *)
Definition connect_to_server :=
  Shell.connect_to_server (world := unit)
    (fun command args => ret tt) (ret tt) (ret tt)
    (ret [py "get_alerts"]) ScriptedNet.str_repr.

Definition fresh : Shell.connection unit :=
  {| Shell.server := tt; Shell.steps := [] |}.

(** A client whose evaluator rejects every payload, as [eval] rejects a
    JSON payload with [true], [false] or [null] in it. *)
Definition rejecting_eval (payload : pystr) : M ScriptedChat.world pystr :=
  fun w => (Raise (Foreign (py "NameError")), w).

Definition process_query_rejecting :=
  Client.process_query ScriptedChat.list_tools
    ScriptedChat.chat_completions_create rejecting_eval
    ScriptedChat.call_tool ScriptedChat.obj_str ScriptedChat.reach
    ScriptedChat.fuel.

End ScriptedShell.

(** Payloads and scripts for further examples. *)
Module Samples.

Definition feature (event : string) : ScriptedNet.json :=
  Weather.JDict
    [ (py "properties",
       Weather.JDict [ (py "event", Weather.JStr (py event));
                       (py "severity", Weather.JStr (py "Severe")) ]) ].

(** Six alerts, one more than the forecast would show. *)
Definition six_features : list ScriptedNet.json :=
  [ feature "Flood Warning"; feature "Heat Advisory";
    feature "Wind Advisory"; feature "Red Flag Warning";
    feature "Frost Advisory"; feature "Dense Fog Advisory" ].

Definition alerts : ScriptedNet.json :=
  Weather.JDict [(py "features", Weather.JList six_features)].

Definition two_periods : list ScriptedNet.json :=
  [ ScriptedNet.sample_period "Today" 71;
    ScriptedNet.sample_period "Tonight" 52 ].

Definition short_forecast : ScriptedNet.json :=
  Weather.JDict
    [(py "properties", Weather.JDict [(py "periods", Weather.JList two_periods)])].

(** A reply to the tool result that has a text and asks for one more
    tool call. *)
Definition asks_again : Client.chat_message :=
  {| Client.content := Some (py "one more");
     Client.tool_calls := Some [ScriptedChat.call_2] |}.

Definition eager : ScriptedChat.world :=
  [ [ScriptedChat.requests [ScriptedChat.call_1]]; [asks_again] ].

(** A reply with neither text nor tool calls. *)
Definition silent : Client.chat_message :=
  {| Client.content := None; Client.tool_calls := None |}.

(** Two tool calls are requested and the model answers once: its script
    is used up when the first tool result is sent. *)
Definition one_reply : ScriptedChat.world :=
  [ [ScriptedChat.requests [ScriptedChat.call_1; ScriptedChat.call_2]] ].

(** A payload that empties the list under iteration and evaluates to a
    [dict], and one that leaves the interpreter. *)
Definition clearing_payload : pystr :=
  py "assistant_message.tool_calls.clear() or {'state': 'CA'}".

Definition exit_payload : pystr := py "exit()".

(** One that puts the tool call under way once more at the end of the
    list under iteration. *)
Definition extending_payload : pystr :=
  py "assistant_message.tool_calls.append(tool_call) or {'state': 'CA'}".

(** An evaluator that knows these payloads and hands any other back as
    text. *)
Definition py_eval (payload : pystr) : M ScriptedChat.world pystr :=
  if str_eqb payload clearing_payload then ret (py "{'state': 'CA'}")
  else if str_eqb payload extending_payload then ret (py "{'state': 'CA'}")
  else if str_eqb payload exit_payload then
    lift (Raise (Foreign (py "SystemExit")))
  else ret payload.

(** The list [assistant_message.tool_calls] after a payload has changed
    it to [calls], as the frame shows it: the list under iteration, and
    the list of the assistant message in the conversation, which is the
    same object. *)
Definition with_tool_calls (calls : list Client.tool_call)
    (f : Client.frame unit pystr) : Client.frame unit pystr :=
  {| Client.frame_messages :=
       map (fun m =>
              match m with
              | Client.AssistantMessage a =>
                Client.AssistantMessage
                  {| Client.content := Client.content a;
                     Client.tool_calls := Some calls |}
              | _ => m
              end)
           (Client.frame_messages f);
     Client.frame_final_text := Client.frame_final_text f;
     Client.frame_tool_calls := calls;
     Client.frame_available_tools := Client.frame_available_tools f;
     Client.frame_tool_call := Client.frame_tool_call f |}.

Definition reach (e : Client.event pystr pystr) (w : ScriptedChat.world)
    (f : Client.frame unit pystr) : option (Client.frame unit pystr) :=
  match e with
  | Client.Eval payload =>
    if str_eqb payload clearing_payload then Some (with_tool_calls [] f)
    else if str_eqb payload extending_payload then
      Some (with_tool_calls
              (Client.frame_tool_calls f ++ [Client.frame_tool_call f]) f)
    else None
  | _ => None
  end.

Definition process_query_body :=
  Client.process_query_body ScriptedChat.list_tools
    ScriptedChat.chat_completions_create py_eval ScriptedChat.call_tool
    ScriptedChat.obj_str reach ScriptedChat.fuel.

Definition process_query :=
  Client.process_query ScriptedChat.list_tools
    ScriptedChat.chat_completions_create py_eval ScriptedChat.call_tool
    ScriptedChat.obj_str reach ScriptedChat.fuel.

Definition chat_loop :=
  Shell.chat_loop process_query ScriptedShell.lower ScriptedShell.exn_str
    ScriptedShell.derives_Exception.

(** The first of two requested tool calls carries the clearing
    payload. *)
Definition clearing : ScriptedChat.world :=
  [ [ScriptedChat.requests
       [ScriptedChat.call (py "call_1") clearing_payload;
        ScriptedChat.call_2]];
    [ScriptedChat.says (py "first")];
    [ScriptedChat.says (py "second")] ].

(** The one requested tool call carries the extending payload, and the
    model has three more replies. *)
Definition extending : ScriptedChat.world :=
  [ [ScriptedChat.requests [ScriptedChat.call (py "call_1") extending_payload]];
    [ScriptedChat.says (py "first")];
    [ScriptedChat.says (py "second")];
    [ScriptedChat.says (py "third")] ].

(** The same client, followed for two iterations of the loop only. *)
Definition process_query_two_rounds :=
  Client.process_query ScriptedChat.list_tools
    ScriptedChat.chat_completions_create py_eval ScriptedChat.call_tool
    ScriptedChat.obj_str reach 2.

(** The one requested tool call carries the payload that exits. *)
Definition exiting : ScriptedChat.world :=
  [ [ScriptedChat.requests [ScriptedChat.call (py "call_1") exit_payload]];
    [ScriptedChat.says (py "done")] ].

End Samples.

(* ================================================================== *)
(** * Properties of the lookup tools *)
(* ================================================================== *)

Import Weather.

Lemma str_eqb_eq (a b : pystr) : str_eqb a b = true <-> a = b.
Proof.
  revert b. induction a as [|x a IH]; intros [|y b]; simpl;
    try (split; [discriminate | congruence]); try tauto.
  rewrite andb_true_iff, N.eqb_eq, IH. split.
  - intros [-> ->]. reflexivity.
  - intros H. injection H. auto.
Qed.

Lemma str_leb_trans (a b c : pystr) :
  str_leb a b = true -> str_leb b c = true -> str_leb a c = true.
Proof.
  revert b c. induction a as [|x a IH]; intros [|y b] [|z c]; simpl;
    try reflexivity; try discriminate.
  destruct (N.ltb_spec x y), (N.ltb_spec y x), (N.ltb_spec y z),
    (N.ltb_spec z y), (N.ltb_spec x z), (N.ltb_spec z x);
    try reflexivity; try discriminate; try lia.
  apply IH.
Qed.

(** [sorted] returns its argument rearranged in ascending order. *)
Lemma sorted_spec (l : list pystr) :
  Permutation l (sorted l) /\ StronglySorted str_le (sorted l).
Proof.
  split.
  - apply StrSort.Permuted_sort.
  - apply StrSort.StronglySorted_sort.
    intros a b c Hab Hbc. unfold is_true in *.
    exact (str_leb_trans a b c Hab Hbc).
Qed.

Lemma lstrip_spaces (ws s : pystr) :
  forallb isspace ws = true -> lstrip (ws ++ s) = lstrip s.
Proof.
  induction ws as [|c ws IH]; simpl; [reflexivity|].
  rewrite andb_true_iff. intros [-> H]. auto.
Qed.

Lemma lstrip_all_spaces (ws : pystr) :
  forallb isspace ws = true -> lstrip ws = [].
Proof.
  intros H. rewrite <- (app_nil_r ws), lstrip_spaces by assumption.
  reflexivity.
Qed.

Lemma lstrip_app (s t : pystr) :
  lstrip s <> [] -> lstrip (s ++ t) = lstrip s ++ t.
Proof.
  induction s as [|c s IH]; simpl; [congruence|].
  destruct (isspace c); auto.
Qed.

Lemma rstrip_spaces (s ws : pystr) :
  forallb isspace ws = true -> rstrip (s ++ ws) = rstrip s.
Proof.
  intros H. unfold rstrip. rewrite rev_app_distr, lstrip_spaces; auto.
  rewrite forallb_forall in *. intros c Hc. apply H, in_rev, Hc.
Qed.

(** [strip] removes any padding made of whitespace. *)
Lemma strip_padding (ws1 s ws2 : pystr) :
  forallb isspace ws1 = true -> forallb isspace ws2 = true ->
  strip (ws1 ++ s ++ ws2) = strip s.
Proof.
  intros H1 H2. unfold strip. rewrite lstrip_spaces by assumption.
  destruct (lstrip s) as [|c r] eqn:E.
  - assert (Hs : forallb isspace s = true).
    { clear -E. induction s as [|c s IH]; simpl in *; [reflexivity|].
      destruct (isspace c); [auto | discriminate]. }
    rewrite lstrip_all_spaces; [reflexivity|].
    rewrite forallb_app, Hs, H2. reflexivity.
  - rewrite lstrip_app by (rewrite E; discriminate).
    rewrite E. apply rstrip_spaces, H2.
Qed.

Section LookupFacts.

Variables str_upper str_title : pystr -> pystr.

Lemma dict_getitem_contains {A} (d : list (pystr * A)) (k : pystr) :
  dict_contains d k = true -> exists v, dict_getitem d k = Ok v.
Proof.
  unfold dict_contains, dict_getitem.
  destruct (dict_lookup d k); [eauto | discriminate].
Qed.

(** X1. The lookup tools return text on every input: the subscript
    after the membership test never raises [KeyError]. *)
Lemma lookup_tools_return_text (s : pystr) :
  (exists t, get_us_state_capital str_upper s = Ok t)
  /\ (exists t, get_south_american_capital str_title s = Ok t).
Proof.
  unfold get_us_state_capital, get_south_american_capital. split.
  - destruct (dict_contains US_STATE_CAPITALS _) eqn:E; simpl; [|eauto].
    destruct (dict_getitem_contains _ _ E) as [v ->]. simpl. eauto.
  - destruct (dict_contains SOUTH_AMERICAN_CAPITALS _) eqn:E; simpl; [|eauto].
    destruct (dict_getitem_contains _ _ E) as [v ->]. simpl. eauto.
Qed.

(** C7. When the normalized input is not a key of the table, each lookup
    tool returns its "not found" text followed by the keys of the table
    joined with ", ": all of them, each once, in ascending order. *)
Theorem lookup_miss_lists_sorted_keys (state country : pystr) :
  dict_contains US_STATE_CAPITALS (str_upper (strip state)) = false ->
  dict_contains SOUTH_AMERICAN_CAPITALS (str_title (strip country)) = false ->
  (exists keys,
     get_us_state_capital str_upper state
     = Ok (py "Estado não encontrado. Estados disponíveis: "
           ++ join (py ", ") keys)
     /\ Permutation (dict_keys US_STATE_CAPITALS) keys
     /\ StronglySorted str_le keys)
  /\ (exists keys,
     get_south_american_capital str_title country
     = Ok (py "País não encontrado. Países disponíveis: "
           ++ join (py ", ") keys)
     /\ Permutation (dict_keys SOUTH_AMERICAN_CAPITALS) keys
     /\ StronglySorted str_le keys).
Proof.
  intros Hus Hsa. split.
  - exists (sorted (dict_keys US_STATE_CAPITALS)).
    unfold get_us_state_capital. rewrite Hus. simpl negb. cbv iota.
    split; [reflexivity | apply sorted_spec].
  - exists (sorted (dict_keys SOUTH_AMERICAN_CAPITALS)).
    unfold get_south_american_capital. rewrite Hsa. simpl negb. cbv iota.
    split; [reflexivity | apply sorted_spec].
Qed.

(** C8. Each lookup tool depends on its input only through the trimmed,
    case-normalized form: two inputs with the same normal form get the
    same result.  In particular " ca " and "CA" both give the capital of
    California, whatever else the case tables hold beyond c -> C and
    a -> A. *)
Theorem lookup_ignores_case_and_whitespace (s1 s2 c1 c2 : pystr) :
  str_upper (strip s1) = str_upper (strip s2) ->
  str_title (strip c1) = str_title (strip c2) ->
  str_upper (py "ca") = py "CA" ->
  str_upper (py "CA") = py "CA" ->
  get_us_state_capital str_upper s1 = get_us_state_capital str_upper s2
  /\ get_south_american_capital str_title c1
     = get_south_american_capital str_title c2
  /\ get_us_state_capital str_upper (py " ca ")
     = get_us_state_capital str_upper (py "CA")
  /\ get_us_state_capital str_upper (py "CA")
     = Ok (py "A capital de CA é Sacramento").
Proof.
  intros Hs Hc Hlow Hup. unfold get_us_state_capital, get_south_american_capital.
  rewrite Hs, Hc.
  replace (strip (py " ca ")) with (py "ca") by reflexivity.
  replace (strip (py "CA")) with (py "CA") by reflexivity.
  rewrite Hlow, Hup. repeat split; reflexivity.
Qed.

(** X2. Whitespace around the input never matters to a lookup tool:
    padding an input with any characters that [str.strip] removes
    leaves the result as it was. *)
Lemma lookup_ignores_padding (ws1 s ws2 : pystr) :
  forallb isspace ws1 = true -> forallb isspace ws2 = true ->
  get_us_state_capital str_upper (ws1 ++ s ++ ws2)
  = get_us_state_capital str_upper s
  /\ get_south_american_capital str_title (ws1 ++ s ++ ws2)
     = get_south_american_capital str_title s.
Proof.
  intros H1 H2. unfold get_us_state_capital, get_south_american_capital.
  rewrite strip_padding by assumption. split; reflexivity.
Qed.

End LookupFacts.

Lemma lookup_miss_lists_sorted_keys_witness :
  (exists keys,
     get_us_state_capital Latin1.upper (py "zz")
     = Ok (py "Estado não encontrado. Estados disponíveis: "
           ++ join (py ", ") keys)
     /\ Permutation (dict_keys US_STATE_CAPITALS) keys
     /\ StronglySorted str_le keys)
  /\ (exists keys,
     get_south_american_capital Latin1.title (py "Portugal")
     = Ok (py "País não encontrado. Países disponíveis: "
           ++ join (py ", ") keys)
     /\ Permutation (dict_keys SOUTH_AMERICAN_CAPITALS) keys
     /\ StronglySorted str_le keys).
Proof.
  apply (lookup_miss_lists_sorted_keys Latin1.upper Latin1.title
           (py "zz") (py "Portugal")); reflexivity.
Defined.

Lemma lookup_ignores_case_and_whitespace_witness :
  get_us_state_capital Latin1.upper (py "  ny")
  = get_us_state_capital Latin1.upper (py "Ny ")
  /\ get_south_american_capital Latin1.title (py "guiana francesa ")
     = get_south_american_capital Latin1.title (py " GUIANA FRANCESA")
  /\ get_us_state_capital Latin1.upper (py " ca ")
     = get_us_state_capital Latin1.upper (py "CA")
  /\ get_us_state_capital Latin1.upper (py "CA")
     = Ok (py "A capital de CA é Sacramento").
Proof.
  apply (lookup_ignores_case_and_whitespace Latin1.upper Latin1.title
           (py "  ny") (py "Ny ") (py "guiana francesa ")
           (py " GUIANA FRANCESA")); reflexivity.
Defined.

(** The two error texts, as the tools print them. *)
Example us_state_miss_text :
  get_us_state_capital Latin1.upper (py "zz")
  = Ok (py "Estado não encontrado. Estados disponíveis: AK, AL, AR, AZ, CA, CO, CT, DE, FL, GA, HI, IA, ID, IL, IN, KS, KY, LA, MA, MD, ME, MI, MN, MO, MS, MT, NC, ND, NE, NH, NJ, NM, NV, NY, OH, OK, OR, PA, RI, SC, SD, TN, TX, UT, VA, VT, WA, WI, WV, WY").
Proof. vm_compute. reflexivity. Qed.

Example south_american_miss_text :
  get_south_american_capital Latin1.title (py "Portugal")
  = Ok (py "País não encontrado. Países disponíveis: Argentina, Bolivia, Brasil, Chile, Colômbia, Equador, Guiana, Guiana Francesa, Paraguai, Peru, Suriname, Uruguai, Venezuela").
Proof. vm_compute. reflexivity. Qed.

Example south_american_hit :
  get_south_american_capital Latin1.title (py " colômbia")
  = Ok (py "A capital de Colômbia é Bogotá").
Proof. vm_compute. reflexivity. Qed.

(* ================================================================== *)
(** * Properties of the network tools *)
(* ================================================================== *)

Lemma map_res_Forall2 {A B} (f : A -> res B) (xs : list A) (ys : list B) :
  map_res f xs = Ok ys -> Forall2 (fun x y => f x = Ok y) xs ys.
Proof.
  revert ys. induction xs as [|x xs IH]; simpl; intros ys H.
  - injection H as <-. constructor.
  - destruct (f x) as [y| |] eqn:Ex; simpl in H; try discriminate.
    destruct (map_res f xs) as [ys'| |]; simpl in H; try discriminate.
    injection H as <-. constructor; auto.
Qed.

Section NetworkFacts.

Variable float : Type.
Variable float_truthy : float -> bool.
Variable float_repr : float -> pystr.
Variable str_repr : pystr -> pystr.
Variable net : Type.
Variable http_get : pystr -> net -> http_outcome float * net.

Local Abbreviation json := (Weather.json float).
Local Abbreviation points_url := (Weather.points_url float_repr).
Local Abbreviation make_nws_request := (Weather.make_nws_request http_get).
Local Abbreviation truthy := (Weather.truthy float_truthy).
Local Abbreviation format_period := (Weather.format_period float_repr str_repr).
Local Abbreviation get_alerts :=
  (Weather.get_alerts float_truthy float_repr str_repr http_get).
Local Abbreviation get_forecast :=
  (Weather.get_forecast float_truthy float_repr str_repr http_get).


Lemma make_nws_request_success (u : pystr) (n n1 : net) (status : Z)
    (data : json) :
  http_get u n = (Response status (Some data), n1) ->
  is_success status = true ->
  make_nws_request (JStr u) n = (Ok data, n1).
Proof.
  intros H Hs. unfold Weather.make_nws_request. rewrite H, Hs. reflexivity.
Qed.

(** A failed fetch is reported to the tool as [None]. *)
Lemma make_nws_request_failure (u : pystr) (n n1 : net)
    (outcome : http_outcome float) :
  http_get u n = (outcome, n1) ->
  fetch_fails outcome = true ->
  make_nws_request (JStr u) n = (Ok JNull, n1).
Proof.
  intros H Hf. unfold Weather.make_nws_request. rewrite H.
  destruct outcome as [|status [data|]]; simpl in Hf; try reflexivity.
  - rewrite orb_false_r in Hf. apply negb_true_iff in Hf. rewrite Hf.
    reflexivity.
  - destruct (is_success status); reflexivity.
Qed.

(** What [get_alerts] does with the payload [make_nws_request] hands it. *)
Lemma get_alerts_no_payload (state : pystr) (n n1 : net) (data : json) :
  make_nws_request (JStr (alerts_url state)) n = (Ok data, n1) ->
  truthy data = false ->
  get_alerts state n
  = (Ok (py "Unable to fetch alerts or no alerts found."), n1).
Proof.
  intros H Ht. unfold Weather.get_alerts, bind, lift, ret.
  rewrite H, Ht. reflexivity.
Qed.

Lemma get_alerts_no_features (state : pystr) (n n1 : net)
    (fields : list (pystr * json)) :
  make_nws_request (JStr (alerts_url state)) n = (Ok (JDict fields), n1) ->
  dict_lookup fields (py "features") = None ->
  get_alerts state n
  = (Ok (py "Unable to fetch alerts or no alerts found."), n1).
Proof.
  intros H Hl. unfold Weather.get_alerts, bind, lift, ret.
  rewrite H.
  destruct (truthy (JDict fields)); simpl; [|reflexivity].
  unfold dict_contains. rewrite Hl. reflexivity.
Qed.

(** C10. When the alerts fetch succeeds with an object whose "features"
    entry is the empty list, [get_alerts] returns "No active alerts for
    this state."; that text differs from the one it returns when there
    is no payload or the payload has no "features" entry. *)
Theorem get_alerts_no_active_alerts (state : pystr) (n n1 : net)
    (status : Z) (fields : list (pystr * json)) :
  http_get (alerts_url state) n = (Response status (Some (JDict fields)), n1) ->
  is_success status = true ->
  dict_lookup fields (py "features") = Some (JList []) ->
  get_alerts state n = (Ok (py "No active alerts for this state."), n1)
  /\ py "No active alerts for this state."
     <> py "Unable to fetch alerts or no alerts found."
  /\ (forall m m1 outcome,
        http_get (alerts_url state) m = (outcome, m1) ->
        fetch_fails outcome = true ->
        get_alerts state m
        = (Ok (py "Unable to fetch alerts or no alerts found."), m1))
  /\ (forall m m1 code other,
        http_get (alerts_url state) m
        = (Response code (Some (JDict other)), m1) ->
        is_success code = true ->
        dict_lookup other (py "features") = None ->
        get_alerts state m
        = (Ok (py "Unable to fetch alerts or no alerts found."), m1)).
Proof.
  intros H Hs Hl. repeat split.
  - unfold Weather.get_alerts, bind, lift, ret.
    rewrite (make_nws_request_success H Hs).
    destruct fields as [|field fields]; [discriminate|].
    simpl. unfold dict_contains, getitem, dict_getitem. rewrite Hl.
    reflexivity.
  - discriminate.
  - intros m m1 outcome Hg Hf.
    apply get_alerts_no_payload with (data := JNull); [|reflexivity].
    exact (make_nws_request_failure Hg Hf).
  - intros m m1 code other Hg Hc Ho.
    apply get_alerts_no_features with (fields := other); [|exact Ho].
    exact (make_nws_request_success Hg Hc).
Qed.

(** What [get_forecast] does once the points lookup has given a URL. *)
Lemma get_forecast_second_fetch (latitude longitude : float) (n n1 n2 : net)
    (points_data properties forecast_url forecast_data : json) :
  make_nws_request (JStr (points_url latitude longitude)) n
  = (Ok points_data, n1) ->
  truthy points_data = true ->
  getitem points_data (py "properties") = Ok properties ->
  getitem properties (py "forecast") = Ok forecast_url ->
  make_nws_request forecast_url n1 = (Ok forecast_data, n2) ->
  get_forecast latitude longitude n
  = (if negb (truthy forecast_data)
     then Ok (py "Unable to fetch detailed forecast.")
     else
       let? properties := getitem forecast_data (py "properties") in
       let? periods := getitem properties (py "periods") in
       let? shown := slice5 periods in
       let? items := iter shown in
       let? forecasts := map_res format_period items in
       Ok (join separator forecasts),
     n2).
Proof.
  intros H1 Ht Hp Hu H2. unfold Weather.get_forecast, bind, lift, ret.
  rewrite H1, Ht. cbn [negb]. cbv beta iota. rewrite Hp. cbv beta iota.
  rewrite Hu. cbv beta iota. rewrite H2.
  destruct (truthy forecast_data); cbn [negb]; cbv beta iota; [|reflexivity].
  destruct (getitem forecast_data _) as [fp| |]; cbn [rbind]; [|reflexivity|reflexivity].
  destruct (getitem fp _) as [ps| |]; cbn [rbind]; [|reflexivity|reflexivity].
  destruct (slice5 ps) as [sh| |]; cbn [rbind]; [|reflexivity|reflexivity].
  destruct (iter sh) as [it| |]; cbn [rbind]; [|reflexivity|reflexivity].
  destruct (map_res _ it); reflexivity.
Qed.

(** C9. When both fetches succeed and the forecast payload carries a
    list of periods, [get_forecast] formats the first five periods of
    that list and no other: at most five texts, the i-th text being the
    i-th period formatted, joined in that order. *)
Theorem get_forecast_first_five_in_order (latitude longitude : float)
    (n n1 n2 : net)
    (points_data properties forecast_url forecast_data forecast_properties
       : json)
    (periods : list json) :
  make_nws_request (JStr (points_url latitude longitude)) n
  = (Ok points_data, n1) ->
  truthy points_data = true ->
  getitem points_data (py "properties") = Ok properties ->
  getitem properties (py "forecast") = Ok forecast_url ->
  make_nws_request forecast_url n1 = (Ok forecast_data, n2) ->
  truthy forecast_data = true ->
  getitem forecast_data (py "properties") = Ok forecast_properties ->
  getitem forecast_properties (py "periods") = Ok (JList periods) ->
  get_forecast latitude longitude n
  = (let? forecasts := map_res format_period (firstn 5 periods) in
     Ok (join separator forecasts), n2)
  /\ (forall forecasts,
        map_res format_period (firstn 5 periods) = Ok forecasts ->
        length forecasts <= 5
        /\ length forecasts = Nat.min 5 (length periods)
        /\ Forall2 (fun period text => format_period period = Ok text)
             (firstn 5 periods) forecasts).
Proof.
  intros H1 Ht Hp Hu H2 Ht2 Hp2 Hps. split.
  - rewrite get_forecast_second_fetch
      with (1 := H1) (2 := Ht) (3 := Hp) (4 := Hu) (5 := H2).
    rewrite Ht2, Hp2. simpl. rewrite Hps. simpl.
    destruct (map_res _ _); reflexivity.
  - intros forecasts Hm. apply map_res_Forall2 in Hm.
    pose proof (Forall2_length Hm) as Hl. rewrite length_firstn in Hl.
    repeat split; [lia | lia | exact Hm].
Qed.

(** C6. For every input of the two network tools and every fetch that
    fails inside [make_nws_request] (no response within the timeout or
    any other transport error, a status outside 2xx, a malformed body,
    one that is not JSON), the tool that asked for it returns a text
    that begins "Unable to fetch" and raises nothing: [get_alerts] for
    its one fetch, [get_forecast] for the points fetch, and for the
    forecast fetch, which it makes once the points payload has given
    its URL. *)
Theorem failed_fetch_is_reported :
  (forall state n n1 outcome,
     http_get (alerts_url state) n = (outcome, n1) ->
     fetch_fails outcome = true ->
     get_alerts state n
     = (Ok (py "Unable to fetch alerts or no alerts found."), n1))
  /\ (forall latitude longitude n n1 outcome,
     http_get (points_url latitude longitude) n = (outcome, n1) ->
     fetch_fails outcome = true ->
     get_forecast latitude longitude n
     = (Ok (py "Unable to fetch forecast data for this location."), n1))
  /\ (forall latitude longitude n n1 n2 points_data properties url outcome,
     make_nws_request (JStr (points_url latitude longitude)) n
     = (Ok points_data, n1) ->
     truthy points_data = true ->
     getitem points_data (py "properties") = Ok properties ->
     getitem properties (py "forecast") = Ok (JStr url) ->
     http_get url n1 = (outcome, n2) ->
     fetch_fails outcome = true ->
     get_forecast latitude longitude n
     = (Ok (py "Unable to fetch detailed forecast."), n2))
  /\ Forall (fun text => startswith (py "Unable to fetch") text = true)
       [ py "Unable to fetch alerts or no alerts found.";
         py "Unable to fetch forecast data for this location.";
         py "Unable to fetch detailed forecast." ].
Proof.
  repeat split.
  - intros state n n1 outcome Hg Hf.
    apply get_alerts_no_payload with (data := JNull); [|reflexivity].
    exact (make_nws_request_failure Hg Hf).
  - intros latitude longitude n n1 outcome Hg Hf.
    unfold Weather.get_forecast, bind, lift, ret.
    rewrite (make_nws_request_failure Hg Hf). reflexivity.
  - intros latitude longitude n n1 n2 points_data properties url outcome
      H1 Ht Hp Hu Hg Hf.
    rewrite get_forecast_second_fetch
      with (1 := H1) (2 := Ht) (3 := Hp) (4 := Hu)
           (5 := make_nws_request_failure Hg Hf).
    reflexivity.
  - repeat constructor.
Qed.

End NetworkFacts.

Lemma get_alerts_no_active_alerts_witness :
  ScriptedNet.get_alerts (py "CA")
    [Response 200%Z (Some (JDict [(py "features", JList [])]))]
  = (Ok (py "No active alerts for this state."), [])
  /\ py "No active alerts for this state."
     <> py "Unable to fetch alerts or no alerts found.".
Proof.
  pose proof
    (@get_alerts_no_active_alerts ScriptedNet.float
       ScriptedNet.float_truthy ScriptedNet.float_repr ScriptedNet.str_repr
       ScriptedNet.net ScriptedNet.http_get (py "CA")
       [Response 200%Z (Some (JDict [(py "features", JList [])]))] []
       200%Z [(py "features", JList [])]
       eq_refl eq_refl eq_refl) as (H1 & H2 & _).
  exact (conj H1 H2).
Defined.

Lemma get_forecast_first_five_in_order_witness :
  ScriptedNet.get_forecast 39%Z (-97)%Z
    [Response 200%Z (Some ScriptedNet.sample_points);
     Response 200%Z (Some ScriptedNet.sample_forecast)]
  = (let? forecasts :=
       map_res (format_period ScriptedNet.float_repr ScriptedNet.str_repr)
         (firstn 5 ScriptedNet.sample_periods) in
     Ok (join separator forecasts), []).
Proof.
  refine (proj1
    (@get_forecast_first_five_in_order ScriptedNet.float
       ScriptedNet.float_truthy ScriptedNet.float_repr ScriptedNet.str_repr
       ScriptedNet.net ScriptedNet.http_get 39%Z (-97)%Z
       [Response 200%Z (Some ScriptedNet.sample_points);
        Response 200%Z (Some ScriptedNet.sample_forecast)]
       [Response 200%Z (Some ScriptedNet.sample_forecast)] []
       ScriptedNet.sample_points _ _ ScriptedNet.sample_forecast _ ScriptedNet.sample_periods
       eq_refl eq_refl eq_refl eq_refl eq_refl eq_refl eq_refl eq_refl)).
Defined.

Example forecast_shows_five_of_seven :
  ScriptedNet.get_forecast 39%Z (-97)%Z
    [Response 200%Z (Some ScriptedNet.sample_points);
     Response 200%Z (Some ScriptedNet.sample_forecast)]
  = (Ok (join separator
           (map (fun day =>
                   nl ++ py (fst day) ++ py ":" ++ nl
                   ++ py "Temperature: " ++ str_of_int (snd day) ++ py "°F" ++ nl
                   ++ py "Wind: 5 mph S" ++ nl
                   ++ py "Forecast: Clear." ++ nl)
                [ ("Today"%string, 71%Z); ("Tonight"%string, 52%Z);
                  ("Monday"%string, 73%Z); ("Monday Night"%string, 54%Z);
                  ("Tuesday"%string, 75%Z) ])), []).
Proof. vm_compute. reflexivity. Qed.

Lemma failed_fetch_is_reported_witness :
  ScriptedNet.get_alerts (py "CA") [RequestFailed]
  = (Ok (py "Unable to fetch alerts or no alerts found."), [])
  /\ ScriptedNet.get_forecast 39%Z (-97)%Z [Response 503%Z None]
     = (Ok (py "Unable to fetch forecast data for this location."), [])
  /\ ScriptedNet.get_forecast 39%Z (-97)%Z
       [Response 200%Z (Some ScriptedNet.sample_points); Response 200%Z None]
     = (Ok (py "Unable to fetch detailed forecast."), []).
Proof.
  pose proof
    (@failed_fetch_is_reported ScriptedNet.float
       ScriptedNet.float_truthy ScriptedNet.float_repr ScriptedNet.str_repr
       ScriptedNet.net ScriptedNet.http_get) as (A & B & C & _).
  split; [|split].
  - exact (A (py "CA") [RequestFailed] [] RequestFailed eq_refl eq_refl).
  - exact (B 39%Z (-97)%Z [Response 503%Z None] [] (Response 503%Z None)
             eq_refl eq_refl).
  - exact (C 39%Z (-97)%Z
             [Response 200%Z (Some ScriptedNet.sample_points); Response 200%Z None]
             [Response 200%Z None] [] ScriptedNet.sample_points _ _ (Response 200%Z None)
             eq_refl eq_refl eq_refl eq_refl eq_refl eq_refl).
Defined.


(* ================================================================== *)
(** * Properties of [process_query] *)
(* ================================================================== *)

Import Client.

Section ClientFacts.

Variables schema pyobj tool_content world : Type.
Variable list_tools : M world (list (tool schema)).
Variable chat_completions_create :
  pystr -> list (message tool_content) -> list (function_tool schema)
  -> M world (list chat_message).
Variable py_eval : pystr -> M world pyobj.
Variable call_tool : pystr -> pyobj -> M world tool_content.
Variable obj_str : pyobj -> M world pystr.
Variable reach :
  event pyobj tool_content -> world -> frame schema tool_content
  -> option (frame schema tool_content).

Local Abbreviation state := (Client.state pyobj tool_content world).
Local Abbreviation round := (Client.round pyobj tool_content).
Local Abbreviation tool_round :=
  (Client.tool_round chat_completions_create py_eval call_tool obj_str reach).
Local Abbreviation tool_loop :=
  (Client.tool_loop chat_completions_create py_eval call_tool obj_str reach).
Local Abbreviation process_query_body :=
  (Client.process_query_body list_tools chat_completions_create
     py_eval call_tool obj_str reach).
Local Abbreviation process_query :=
  (Client.process_query list_tools chat_completions_create
     py_eval call_tool obj_str reach).
Local Abbreviation available tools :=
  (map (fun tool => {| name := tool_name tool;
                       description := tool_description tool;
                       input_schema := tool_inputSchema tool |}) tools).

Lemma model_calls_app (xs ys : list (event pyobj tool_content)) :
  model_calls (xs ++ ys) = model_calls xs ++ model_calls ys.
Proof.
  induction xs as [|[| | | | |] xs IH]; simpl; congruence.
Qed.

Lemma frame_changes_app (xs ys : list (event pyobj tool_content)) :
  frame_changes (xs ++ ys) = frame_changes xs + frame_changes ys.
Proof.
  induction xs as [|[| | | | |] xs IH]; simpl; congruence.
Qed.

(** A call made inside the loop only adds to the trace. *)
Lemma frame_call_grows {A} (e : event pyobj tool_content) (c : M world A)
    (f : frame schema tool_content) (st : state) r (st' : state) :
  Client.frame_call reach e c f st = (r, st') ->
  frame_changes (trace st) <= frame_changes (trace st').
Proof.
  unfold Client.frame_call.
  destruct (c (outside st)) as [[a|x|] w]; [destruct (reach e w f)|..];
    intros H; injection H as <- <-; cbn [trace];
    rewrite frame_changes_app; lia.
Qed.

(** A call that returns without a change of the frame. *)
Lemma frame_call_quiet {A} (e : event pyobj tool_content) (c : M world A)
    (f : frame schema tool_content) (st : state) (a : A) f' (st' : state) :
  frame_changes [e] = 0 ->
  Client.frame_call reach e c f st = (Ok (a, f'), st') ->
  frame_changes (trace st') <= frame_changes (trace st) ->
  f' = f /\ c (outside st) = (Ok a, outside st') /\ trace st' = trace st ++ [e].
Proof.
  intros He. unfold Client.frame_call.
  destruct (c (outside st)) as [[a0|x|] w]; [|discriminate..].
  destruct (reach e w f) as [f1|]; intros H; injection H as <- <- <-;
    cbn [trace outside]; intros Hq.
  - change [e; FrameChanged] with ([e] ++ [FrameChanged]) in Hq.
    rewrite !frame_changes_app, He in Hq. simpl in Hq. lia.
  - auto.
Qed.

Tactic Notation "call_step" hyp(H) ident(E) ident(a) :=
  unfold bind at 1 in H;
  match type of H with
  | context [Client.frame_call ?r ?e ?c ?f ?s] =>
    destruct (Client.frame_call r e c f s) as [[[a ?]|?|] ?] eqn:E;
    cbv beta iota zeta in H;
    pose proof (frame_call_grows _ _ _ _ E)
  end.

Ltac loop_left H := injection H as <- <-; lia.

Lemma tool_round_grows (call : tool_call) (f : frame schema tool_content)
    (st : state) r (st' : state) :
  tool_round call f st = (r, st') ->
  frame_changes (trace st) <= frame_changes (trace st').
Proof.
  unfold Client.tool_round. intros H.
  call_step H E1 a1; [|loop_left H..].
  call_step H E2 a2; [|loop_left H..].
  call_step H E3 a3; [|loop_left H..].
  call_step H E4 a4; [|loop_left H..].
  unfold bind, lift, ret in H.
  destruct (first_choice _); loop_left H.
Qed.

(** One pass through the body of the loop that comes to its end with
    no change of the frame from outside. *)
Lemma tool_round_quiet (call : tool_call) (f : frame schema tool_content)
    (st : state) f' (st' : state) :
  tool_round call f st = (Ok f', st') ->
  frame_changes (trace st') <= frame_changes (trace st) ->
  exists r : round,
    round_call r = call
    /\ frame_messages f' = frame_messages f ++ [round_message r]
    /\ frame_final_text f' = frame_final_text f ++ round_text r
    /\ frame_tool_calls f' = frame_tool_calls f
    /\ trace st'
       = trace st
         ++ [ Eval (function_arguments call);
              CallTool (function_name call) (round_args r);
              Format (round_args r);
              ModelCall (py "gpt-4-turbo-preview")
                (frame_messages f ++ [round_message r]) ].
Proof.
  unfold Client.tool_round. intros H Hq.
  call_step H E1 args; [|discriminate..].
  call_step H E2 result; [|discriminate..].
  call_step H E3 shown; [|discriminate..].
  call_step H E4 response; [|discriminate..].
  unfold bind, lift, ret in H.
  destruct (first_choice _) as [next| |]; [|discriminate..].
  injection H as <- <-.
  apply frame_call_quiet in E1; [|reflexivity|lia].
  destruct E1 as (-> & _ & T1).
  apply frame_call_quiet in E2; [|reflexivity|lia].
  destruct E2 as (-> & _ & T2).
  apply frame_call_quiet in E3; [|reflexivity|lia].
  destruct E3 as (-> & _ & T3).
  apply frame_call_quiet in E4; [|reflexivity|lia].
  destruct E4 as (-> & _ & T4).
  exists {| round_call := call; round_args := args;
            round_result := result; round_shown := shown;
            round_reply := content next |}.
  cbn. rewrite T4, T3, T2, T1. cbn. rewrite <- !app_assoc. cbn.
  repeat split; reflexivity.
Qed.

Lemma tool_loop_grows (fuel : nat) :
  forall index (f : frame schema tool_content) (st : state) r (st' : state),
    tool_loop fuel index f st = (r, st') ->
    frame_changes (trace st) <= frame_changes (trace st').
Proof.
  induction fuel as [|fuel IH]; intros index f st r st' H;
    cbn [Client.tool_loop] in H;
    destruct (nth_error (frame_tool_calls f) index) as [call|];
    try (injection H as <- <-; lia).
  unfold bind at 1 in H.
  destruct (tool_round call f st) as [[f1|x|] st1] eqn:E;
    apply tool_round_grows in E; [|loop_left H..].
  apply IH in H. lia.
Qed.

Lemma skipn_nth_error {A} (l : list A) :
  forall index,
    skipn index l
    = match nth_error l index with
      | Some x => x :: skipn (S index) l
      | None => []
      end.
Proof.
  induction l as [|x l IH]; intros [|index]; try reflexivity.
  cbn [skipn nth_error]. rewrite IH. destruct (nth_error l index); reflexivity.
Qed.

(** The loop, when it completes with no change of the frame from
    outside, has made one round per call from [index] on, in order, and
    nothing else. *)
Lemma tool_loop_rounds (fuel : nat) :
  forall index (f : frame schema tool_content) (st : state) f' (st' : state),
    tool_loop fuel index f st = (Ok f', st') ->
    frame_changes (trace st') <= frame_changes (trace st) ->
    exists rounds : list round,
      map (@round_call _ _) rounds = skipn index (frame_tool_calls f)
      /\ frame_messages f'
         = frame_messages f ++ map (@round_message _ _) rounds
      /\ frame_final_text f'
         = frame_final_text f ++ flat_map (@round_text _ _) rounds
      /\ trace st' = trace st ++ loop_events (frame_messages f) rounds.
Proof.
  induction fuel as [|fuel IH]; intros index f st f' st' H Hq;
    cbn [Client.tool_loop] in H; rewrite skipn_nth_error;
    destruct (nth_error (frame_tool_calls f) index) as [call|];
    try discriminate;
    try (injection H as <- <-; exists []; simpl; rewrite !app_nil_r; auto).
  unfold bind at 1 in H.
  destruct (tool_round call f st) as [[f1|x|] st1] eqn:E; [|discriminate..].
  pose proof (tool_round_grows _ _ _ E) as G1.
  pose proof (tool_loop_grows _ _ _ _ H) as G2.
  apply tool_round_quiet in E; [|lia].
  destruct E as (r & Hc & Hm & Hf & Hl & Ht).
  apply IH in H; [|lia].
  destruct H as (rounds & Hcs & Hms & Hfs & Hts).
  exists (r :: rounds). cbn [map flat_map loop_events].
  rewrite Hc, Hcs, Hl, Hms, Hm, Hfs, Hf, Hts, Ht, Hm.
  rewrite <- !app_assoc. auto.
Qed.

Lemma tool_loop_eval_raises (fuel : nat) (call : tool_call)
    (f : frame schema tool_content) (st : state) (e : exn) (w : world) :
  nth_error (frame_tool_calls f) 0 = Some call ->
  py_eval (function_arguments call) (outside st) = (Raise e, w) ->
  tool_loop (S fuel) 0 f st
  = (Raise e,
     {| outside := w;
        trace := trace st ++ [Eval (function_arguments call)] |}).
Proof.
  intros Hn He. cbn [Client.tool_loop]. rewrite Hn.
  unfold bind at 1, Client.tool_round. unfold bind at 1.
  unfold Client.frame_call at 1. rewrite He. reflexivity.
Qed.

(** The fuel is a horizon and nothing else: an outcome other than
    [Unfinished] stays what it is when more iterations are followed. *)
Lemma tool_loop_more_fuel (fuel : nat) :
  forall fuel' index (f : frame schema tool_content) (st : state) r
         (st' : state),
    fuel <= fuel' ->
    tool_loop fuel index f st = (r, st') ->
    r <> Unfinished ->
    tool_loop fuel' index f st = (r, st').
Proof.
  induction fuel as [|fuel IH]; intros [|fuel'] index f st r st' Hle H Hr;
    try lia; cbn [Client.tool_loop] in H |- *;
    destruct (nth_error (frame_tool_calls f) index) as [call|];
    try exact H;
    try (injection H as <- <-; congruence).
  unfold bind in H |- *.
  destruct (tool_round call f st) as [[f1|x|] st1]; try exact H.
  apply IH; [lia | exact H | exact Hr].
Qed.

#[local] Arguments Client.tool_loop : simpl never.

Lemma process_query_more_fuel (fuel fuel' : nat) (query : pystr)
    (st : state) r (st' : state) :
  fuel <= fuel' ->
  process_query fuel query st = (r, st') ->
  r <> Unfinished ->
  process_query fuel' query st = (r, st').
Proof.
  intros Hle H Hr.
  unfold Client.process_query, Client.process_query_body, create,
    outside_call, bind, lift, ret in H |- *.
  destruct (list_tools (outside st)) as [[tools|e|] w1]; try exact H.
  cbn [outside trace] in H |- *.
  destruct (chat_completions_create _ _ _ w1) as [[response|e|] w2];
    try exact H.
  destruct (first_choice response) as [m|e|]; try exact H.
  destruct (requested_calls m) as [|call calls]; [exact H|].
  destruct (Client.tool_loop _ _ _ _ _ fuel _ _ _) as [r1 st4] eqn:E.
  assert (Hr1 : r1 <> Unfinished).
  { intros ->. injection H as <- <-. congruence. }
  rewrite (@tool_loop_more_fuel fuel fuel' 0 _ _ _ _ Hle E Hr1). exact H.
Qed.

(** A completed call of [process_query] in which no call to the outside
    has changed the frame: the tools were listed, the model answered
    with [m], the loop made one round per call that [m] requests, and
    the text is [final_text] joined. *)
Lemma process_query_body_run (fuel : nat) (query : pystr) (st st' : state)
    (conversation : list (message tool_content)) (text : pystr) :
  process_query_body fuel query st = (Ok (conversation, text), st') ->
  frame_changes (trace st') = frame_changes (trace st) ->
  exists tools w1 m others w2 (rounds : list round),
    list_tools (outside st) = (Ok tools, w1)
    /\ chat_completions_create (py "gpt-4o-mini") [UserMessage query]
         (function_tools (available tools)) w1
       = (Ok (m :: others), w2)
    /\ map (@round_call _ _) rounds = requested_calls m
    /\ conversation
       = [UserMessage query; AssistantMessage m]
         ++ map (@round_message _ _) rounds
    /\ join_lines (run_text m rounds) = Ok text
    /\ trace st'
       = trace st
         ++ ListTools :: ModelCall (py "gpt-4o-mini") [UserMessage query]
            :: loop_events [UserMessage query; AssistantMessage m] rounds.
Proof.
  intros H Hq. unfold Client.process_query_body in H.
  unfold bind at 1 in H. unfold outside_call at 1 in H.
  destruct (list_tools (outside st)) as [[tools|e|] w1] eqn:El;
    [|discriminate..].
  unfold bind at 1 in H. unfold create, outside_call in H. simpl in H.
  destruct (chat_completions_create _ _ _ w1) as [[response|e|] w2] eqn:Ec;
    [|discriminate..].
  unfold bind at 1 in H. unfold lift at 1 in H.
  destruct response as [|m others]; simpl in H; [discriminate|].
  exists tools, w1, m, others, w2.
  unfold bind at 1 in H.
  destruct (requested_calls m) as [|call calls] eqn:Er.
  - unfold ret at 1 in H. unfold bind, lift, ret in H. simpl in H.
    destruct (join_lines [content m]) as [t|e|] eqn:Ej; [|discriminate..].
    injection H as <- <- <-. exists []. simpl.
    rewrite Ej, <- app_assoc. simpl. repeat split; auto.
  - unfold bind at 1 in H.
    destruct (Client.tool_loop _ _ _ _ _ _ _ _ _)
      as [[f'|e|] st1] eqn:Et; [|discriminate..].
    unfold ret at 1 in H. unfold bind, lift, ret in H. cbn [fst snd] in H.
    destruct (join_lines (frame_final_text f')) as [t|e|] eqn:Ej;
      [|discriminate..].
    injection H as <- <- <-.
    apply tool_loop_rounds in Et;
      [|cbn [trace]; rewrite !frame_changes_app; cbn [frame_changes]; lia].
    cbn [frame_messages frame_final_text frame_tool_calls trace skipn] in Et.
    destruct Et as (rounds & Hc & Hm & Hf & Ht).
    exists rounds.
    destruct rounds as [|r rounds]; [discriminate|].
    rewrite Hf in Ej. cbn [app] in Ej.
    unfold run_text. rewrite Ht, Hm. repeat split; auto.
    rewrite <- !app_assoc. reflexivity.
Qed.

(** The model calls of the loop: one per round, the k-th (from 0) sent
    with the tool results of the rounds up to the k-th and no later one. *)
Lemma loop_model_calls (rounds : list round) :
  forall base : list (message tool_content),
    length (model_calls (loop_events base rounds)) = length rounds
    /\ forall k conversation,
         nth_error (model_calls (loop_events base rounds)) k
         = Some conversation ->
         conversation
         = base ++ map (@round_message _ _) (firstn (S k) rounds).
Proof.
  induction rounds as [|r rounds IH]; intros base; simpl.
  - split; [reflexivity|]. intros [|k] conversation H; discriminate.
  - destruct (IH (base ++ [round_message r])) as [Hl Hn]. split.
    + rewrite Hl. reflexivity.
    + intros [|k] conversation H; simpl in H.
      * injection H as <-. destruct rounds; reflexivity.
      * apply Hn in H. rewrite H, <- app_assoc. reflexivity.
Qed.


(** C5. When the model's response requests no tool call and has a text,
    [process_query] returns that text as it is, after the one model
    call. *)
Theorem no_tool_calls_returns_text (fuel : nat) (query : pystr) (st : state)
    (tools : list (tool schema)) (w1 w2 : world)
    (m : chat_message) (others : list chat_message) (text : pystr) :
  list_tools (outside st) = (Ok tools, w1) ->
  chat_completions_create (py "gpt-4o-mini") [UserMessage query]
    (function_tools (available tools)) w1
  = (Ok (m :: others), w2) ->
  requested_calls m = [] ->
  content m = Some text ->
  process_query fuel query st
  = (Ok text,
     {| outside := w2;
        trace := trace st
                 ++ [ListTools;
                     ModelCall (py "gpt-4o-mini") [UserMessage query]] |}).
Proof.
  intros Hl Hc Hr Ht.
  unfold Client.process_query, Client.process_query_body.
  unfold create. unfold bind, outside_call, lift, ret.
  rewrite Hl. cbn [outside trace]. rewrite Hc. cbn [first_choice].
  rewrite Hr, Ht. cbn [snd fst join_lines all_text rbind join].
  rewrite <- app_assoc. reflexivity.
Qed.

(** C4, as amended.  When a call of [process_query] completes and no
    call to the outside has changed an object of its frame, the
    conversation it leaves is the user message, the assistant message,
    and then one tool-result message per requested tool call and no
    more: the i-th carries the identifier (and the name) of the i-th
    requested call. *)
Theorem tool_results_answer_calls_in_order (fuel : nat) (query : pystr)
    (st st' : state) (tools : list (tool schema)) (w1 w2 : world)
    (m : chat_message) (others : list chat_message)
    (conversation : list (message tool_content)) (text : pystr) :
  list_tools (outside st) = (Ok tools, w1) ->
  chat_completions_create (py "gpt-4o-mini") [UserMessage query]
    (function_tools (available tools)) w1
  = (Ok (m :: others), w2) ->
  requested_calls m <> [] ->
  process_query_body fuel query st = (Ok (conversation, text), st') ->
  frame_changes (trace st') = frame_changes (trace st) ->
  exists appended,
    conversation = [UserMessage query; AssistantMessage m] ++ appended
    /\ length appended = length (requested_calls m)
    /\ Forall2 (fun call answer =>
                  exists result,
                    answer = ToolMessage (id call) (function_name call) result)
         (requested_calls m) appended.
Proof.
  intros Hl Hc _ H Hq. apply process_query_body_run in H; [|exact Hq].
  destruct H as (tools' & w1' & m' & others' & w2' & rounds
                 & Hl' & Hc' & Hr & Hm & _).
  rewrite Hl in Hl'. injection Hl' as <- <-.
  rewrite Hc in Hc'. injection Hc' as <- <- <-.
  exists (map (@round_message _ _) rounds). rewrite <- Hr.
  split; [exact Hm|]. rewrite !length_map. split; [reflexivity|].
  clear. induction rounds as [|r rounds IH]; simpl; constructor; auto.
  exists (round_result r). reflexivity.
Qed.


Lemma answers_count_occ (call : tool_call) (rounds : list round) :
  length (filter (answers call) (map (@round_message _ _) rounds))
  = count_occ str_dec
      (map (fun r => id (round_call r)) rounds) (id call).
Proof.
  induction rounds as [|r rounds IH]; simpl; [reflexivity|].
  destruct (str_eqb (id (round_call r)) (id call)) eqn:E;
    destruct (str_dec (id (round_call r)) (id call)) as [He|He]; simpl;
    try (rewrite IH; reflexivity).
  - apply str_eqb_eq in E. contradiction.
  - apply str_eqb_eq in He. congruence.
Qed.

Lemma NoDup_prefix_count (ids : list pystr) (k : nat) (x : pystr) :
  NoDup ids ->
  (In x (firstn k ids) -> count_occ str_dec (firstn k ids) x = 1)
  /\ (In x (skipn k ids) -> count_occ str_dec (firstn k ids) x = 0).
Proof.
  intros Hnd.
  pose proof (proj1 (NoDup_count_occ str_dec ids) Hnd x) as Hle.
  rewrite <- (firstn_skipn k ids), count_occ_app in Hle.
  split; intros Hin; apply (count_occ_In str_dec) in Hin; lia.
Qed.

(** C3, as amended.  When a call of [process_query] completes, no call
    to the outside has changed an object of its frame and the requested
    tool calls have pairwise distinct identifiers, the k-th model call
    (counting the first as 0) is sent when the first k requested calls
    have one tool-result message each and the calls after them have
    none; at the last model call every requested call has exactly
    one. *)
Theorem model_calls_see_answered_prefix (fuel : nat) (query : pystr)
    (st st' : state) (tools : list (tool schema)) (w1 w2 : world)
    (m : chat_message) (others : list chat_message)
    (conversation : list (message tool_content)) (text : pystr) :
  list_tools (outside st) = (Ok tools, w1) ->
  chat_completions_create (py "gpt-4o-mini") [UserMessage query]
    (function_tools (available tools)) w1
  = (Ok (m :: others), w2) ->
  NoDup (map id (requested_calls m)) ->
  process_query_body fuel query st = (Ok (conversation, text), st') ->
  frame_changes (trace st') = frame_changes (trace st) ->
  exists events,
    trace st' = trace st ++ events
    /\ length (model_calls events) = S (length (requested_calls m))
    /\ forall k sent,
         nth_error (model_calls events) k = Some sent ->
         (forall call, In call (firstn k (requested_calls m)) ->
                       answer_count sent call = 1)
         /\ (forall call, In call (skipn k (requested_calls m)) ->
                          answer_count sent call = 0)
         /\ (k = length (requested_calls m) ->
             all_answered_once sent = true).
Proof.
  intros Hl Hc Hnd H Hq. apply process_query_body_run in H; [|exact Hq].
  destruct H as (tools' & w1' & m' & others' & w2' & rounds
                 & Hl' & Hc' & Hr & Hm & Hj & Ht).
  rewrite Hl in Hl'. injection Hl' as <- <-.
  rewrite Hc in Hc'. injection Hc' as <- <- <-.
  destruct (loop_model_calls rounds [UserMessage query; AssistantMessage m])
    as [Hlen Hnth].
  eexists. split; [exact Ht|]. simpl model_calls. split.
  { simpl. rewrite Hlen, <- Hr, length_map. reflexivity. }
  assert (Hcount : forall k call,
    answer_count
      ([UserMessage query; AssistantMessage m]
       ++ map (@round_message _ _) (firstn k rounds)) call
    = count_occ str_dec (firstn k (map id (requested_calls m))) (id call)).
  { intros k call. unfold answer_count. simpl.
    rewrite answers_count_occ, <- Hr, map_map, firstn_map. reflexivity. }
  assert (Hpre : forall k,
    (forall call, In call (firstn k (requested_calls m)) ->
       count_occ str_dec (firstn k (map id (requested_calls m))) (id call) = 1)
    /\ (forall call, In call (skipn k (requested_calls m)) ->
       count_occ str_dec (firstn k (map id (requested_calls m))) (id call) = 0)).
  { intros k. split; intros call Hin;
      apply (NoDup_prefix_count k (id call) Hnd).
    - rewrite firstn_map. apply in_map, Hin.
    - rewrite skipn_map. apply in_map, Hin. }
  intros [|k] sent Hk; simpl in Hk.
  - injection Hk as <-. split; [intros call []|]. split; [reflexivity|].
    reflexivity.
  - apply Hnth in Hk. subst sent.
    split; [|split].
    + intros call Hin. rewrite Hcount. apply Hpre, Hin.
    + intros call Hin. rewrite Hcount. apply Hpre, Hin.
    + intros Hk. unfold all_answered_once.
      assert (He : emitted_calls
                (([UserMessage query; AssistantMessage m]
                  ++ map (@round_message _ _) (firstn (S k) rounds))
                 : list (message tool_content))
              = requested_calls m).
      { unfold emitted_calls. rewrite flat_map_app. simpl.
        rewrite app_nil_r.
        assert (Hz : forall rs : list round,
          flat_map (fun x : message tool_content =>
                      match x with
                      | AssistantMessage a => requested_calls a
                      | _ => []
                      end) (map (@round_message _ _) rs) = []).
        { intros rs. induction rs; simpl; auto. }
        rewrite Hz, app_nil_r. reflexivity. }
      rewrite He. apply forallb_forall. intros call Hin.
      apply Nat.eqb_eq. rewrite Hcount. apply Hpre.
      rewrite Hk, firstn_all. exact Hin.
Qed.

(** X11. The payload of a requested tool call goes to [eval] as the
    model sent it: nothing inspects it first, and when [eval] raises on
    the first payload, [process_query] raises the same exception, with
    the effects of [eval] in place, no tool called and no further model
    call made. *)
Lemma process_query_evaluates_payload (fuel : nat) (query : pystr)
    (st : state) (tools : list (tool schema)) (w1 w2 w3 : world)
    (m : chat_message) (others : list chat_message)
    (call : tool_call) (calls : list tool_call) (e : exn) :
  list_tools (outside st) = (Ok tools, w1) ->
  chat_completions_create (py "gpt-4o-mini") [UserMessage query]
    (function_tools (available tools)) w1
  = (Ok (m :: others), w2) ->
  requested_calls m = call :: calls ->
  py_eval (function_arguments call) w2 = (Raise e, w3) ->
  process_query (S fuel) query st
  = (Raise e,
     {| outside := w3;
        trace := trace st
                 ++ [ListTools;
                     ModelCall (py "gpt-4o-mini") [UserMessage query];
                     Eval (function_arguments call)] |}).
Proof.
  intros Hl Hc Hr He.
  unfold Client.process_query, Client.process_query_body.
  unfold create. unfold bind, outside_call, lift, ret.
  rewrite Hl. cbn [outside trace]. rewrite Hc. cbn [first_choice].
  rewrite Hr. erewrite tool_loop_eval_raises; [|reflexivity|exact He].
  cbn [trace]. rewrite <- !app_assoc. reflexivity.
Qed.

End ClientFacts.

(** ** The scripted runs *)

Lemma no_tool_calls_returns_text_witness :
  ScriptedChat.process_query (py "hello")
    (ScriptedChat.start [[ScriptedChat.says (py "Hello!")]])
  = (Ok (py "Hello!"),
     {| outside := [];
        trace := [ListTools;
                  ModelCall (py "gpt-4o-mini") [UserMessage (py "hello")]] |}).
Proof.
  eapply (@no_tool_calls_returns_text unit pystr pystr ScriptedChat.world
            ScriptedChat.list_tools ScriptedChat.chat_completions_create
            ScriptedChat.py_eval ScriptedChat.call_tool ScriptedChat.obj_str
            ScriptedChat.reach ScriptedChat.fuel
            (py "hello")
            (ScriptedChat.start [[ScriptedChat.says (py "Hello!")]]));
    reflexivity.
Defined.

Lemma tool_results_answer_calls_in_order_witness :
  exists appended,
    [ UserMessage (py "alerts?");
      AssistantMessage
        (ScriptedChat.requests [ScriptedChat.call_1; ScriptedChat.call_2]);
      ToolMessage (py "call_1") (py "get_alerts") (py "result of get_alerts");
      ToolMessage (py "call_2") (py "get_alerts") (py "result of get_alerts") ]
    = [ UserMessage (py "alerts?");
        AssistantMessage
          (ScriptedChat.requests [ScriptedChat.call_1; ScriptedChat.call_2]) ]
      ++ appended
    /\ length appended = 2
    /\ Forall2 (fun call answer =>
                  exists result : pystr,
                    answer = ToolMessage (id call) (function_name call) result)
         [ScriptedChat.call_1; ScriptedChat.call_2] appended.
Proof.
  eapply (@tool_results_answer_calls_in_order unit pystr pystr
            ScriptedChat.world
            ScriptedChat.list_tools ScriptedChat.chat_completions_create
            ScriptedChat.py_eval ScriptedChat.call_tool ScriptedChat.obj_str
            ScriptedChat.reach ScriptedChat.fuel
            (py "alerts?") (ScriptedChat.start ScriptedChat.two_calls));
    [reflexivity | reflexivity | discriminate | vm_compute; reflexivity
    | vm_compute; reflexivity].
Defined.

(** C4, as stated, fails: the model requests two tool calls and its
    reply to the first tool result does not come.  The run ends with
    the exception of that model call; the conversation it had built by
    then, the one that call was sent with, holds one tool-result
    message. *)
Lemma failed_model_call_leaves_one_tool_result :
  exists st' sent,
    ScriptedChat.process_query_body (py "alerts?")
      (ScriptedChat.start Samples.one_reply)
    = (Raise (Foreign (py "APIError")), st')
    /\ length (requested_calls
                 (ScriptedChat.requests
                    [ScriptedChat.call_1; ScriptedChat.call_2])) = 2
    /\ trace st'
       = [ ListTools;
           ModelCall (py "gpt-4o-mini") [UserMessage (py "alerts?")];
           Eval (py "{'state': 'CA'}");
           CallTool (py "get_alerts") (py "{'state': 'CA'}");
           Format (py "{'state': 'CA'}");
           ModelCall (py "gpt-4-turbo-preview") sent ]
    /\ sent
       = [ UserMessage (py "alerts?");
           AssistantMessage
             (ScriptedChat.requests
                [ScriptedChat.call_1; ScriptedChat.call_2]);
           ToolMessage (py "call_1") (py "get_alerts")
             (py "result of get_alerts") ]
    /\ length (filter (@is_tool_message _) sent) = 1.
Proof.
  do 2 eexists. split; [vm_compute; reflexivity|].
  split; [reflexivity|]. split; [reflexivity|].
  split; reflexivity.
Qed.


(** C3, as stated, fails: in the same run the second model call is sent
    while the second requested tool call has no tool-result message. *)
Lemma second_model_call_sees_unanswered_call :
  exists sent,
    nth_error (model_calls (trace (snd ScriptedChat.two_calls_run))) 1
    = Some sent
    /\ sent
       = [ UserMessage (py "alerts?");
           AssistantMessage
             (ScriptedChat.requests
                [ScriptedChat.call_1; ScriptedChat.call_2]);
           ToolMessage (py "call_1") (py "get_alerts")
             (py "result of get_alerts") ]
    /\ answer_count sent ScriptedChat.call_2 = 0
    /\ all_answered_once sent = false.
Proof.
  eexists. split; [vm_compute; reflexivity|].
  split; [vm_compute; reflexivity|]. split; vm_compute; reflexivity.
Qed.

(** C1: the code at a crafted payload.  The model requests a tool call
    whose arguments are the text of a Python call expression; the third
    thing [process_query] does is to hand that text to [eval]. *)
Theorem crafted_payload_is_evaluated :
  nth_error (trace (snd ScriptedChat.crafted_run)) 2
  = Some (Eval (py "__import__('os').system('id')")).
Proof. vm_compute. reflexivity. Qed.


Lemma model_calls_see_answered_prefix_witness :
  exists events,
    trace (snd ScriptedChat.two_calls_run) = [] ++ events
    /\ length (model_calls events) = 3
    /\ forall k sent,
         nth_error (model_calls events) k = Some sent ->
         (forall call,
            In call (firstn k [ScriptedChat.call_1; ScriptedChat.call_2]) ->
            answer_count sent call = 1)
         /\ (forall call,
               In call (skipn k [ScriptedChat.call_1; ScriptedChat.call_2]) ->
               answer_count sent call = 0)
         /\ (k = 2 -> all_answered_once sent = true).
Proof.
  refine (@model_calls_see_answered_prefix unit pystr pystr
            ScriptedChat.world
            ScriptedChat.list_tools ScriptedChat.chat_completions_create
            ScriptedChat.py_eval ScriptedChat.call_tool ScriptedChat.obj_str
            ScriptedChat.reach ScriptedChat.fuel
            (py "alerts?") (ScriptedChat.start ScriptedChat.two_calls)
            (snd ScriptedChat.two_calls_run) _ _ _
            (ScriptedChat.requests [ScriptedChat.call_1; ScriptedChat.call_2])
            _ _ _ _ _ _ _ _);
    [reflexivity | reflexivity | | vm_compute; reflexivity
    | vm_compute; reflexivity].
  repeat constructor; simpl; intuition discriminate.
Defined.

(** A payload that changes the frame.  Of two requested tool calls the
    first carries a payload that empties the list the loop iterates:
    the loop ends after its first round, the second call is never
    looked at, one tool-result message was appended and the model was
    called once more.  In the conversation sent with that call the
    assistant message shows the emptied list. *)
Example clearing_payload_ends_the_loop :
  Samples.process_query_body (py "alerts?")
    (ScriptedChat.start Samples.clearing)
  = (Ok ([ UserMessage (py "alerts?");
           AssistantMessage
             {| content := None; tool_calls := Some [] |};
           ToolMessage (py "call_1") (py "get_alerts")
             (py "result of get_alerts") ],
         join [10%N]
           [ py "[Calling tool get_alerts with args {'state': 'CA'}]";
             py "first" ]),
     {| outside := [[ScriptedChat.says (py "second")]];
        trace :=
          [ ListTools;
            ModelCall (py "gpt-4o-mini") [UserMessage (py "alerts?")];
            Eval Samples.clearing_payload;
            FrameChanged;
            CallTool (py "get_alerts") (py "{'state': 'CA'}");
            Format (py "{'state': 'CA'}");
            ModelCall (py "gpt-4-turbo-preview")
              [ UserMessage (py "alerts?");
                AssistantMessage
                  {| content := None; tool_calls := Some [] |};
                ToolMessage (py "call_1") (py "get_alerts")
                  (py "result of get_alerts") ] ] |}).
Proof. vm_compute. reflexivity. Qed.

(** A payload that keeps the loop going.  One tool call is requested;
    its payload puts it once more at the end of the list under
    iteration, every time it is evaluated.  The loop makes a round for
    each reply the model still has and ends when the model fails: four
    tools were called for the one requested.  Followed for two
    iterations, the loop is not at its end. *)
Example extending_payload_keeps_the_loop_going :
  (exists st',
     Samples.process_query (py "alerts?")
       (ScriptedChat.start Samples.extending)
     = (Raise (Foreign (py "APIError")), st')
     /\ Reading.called_tools (trace st')
        = [py "get_alerts"; py "get_alerts"; py "get_alerts"; py "get_alerts"]
     /\ frame_changes (trace st') = 4)
  /\ (exists st',
        Samples.process_query_two_rounds (py "alerts?")
          (ScriptedChat.start Samples.extending)
        = (Unfinished, st')
        /\ Reading.called_tools (trace st')
           = [py "get_alerts"; py "get_alerts"]).
Proof.
  split; eexists; (split; [vm_compute; reflexivity|]); [split|];
    vm_compute; reflexivity.
Qed.

(* ================================================================== *)
(** * More on the lookup tools and their tables *)
(* ================================================================== *)

Lemma distinct_NoDup (l : list pystr) : Reading.distinct l = true -> NoDup l.
Proof.
  induction l as [|x l IH]; simpl; [constructor|].
  rewrite andb_true_iff, negb_true_iff. intros [Hx Hl].
  constructor; [|auto]. intros Hin.
  assert (H : existsb (str_eqb x) l = true).
  { apply existsb_exists. exists x. split; [exact Hin|].
    apply str_eqb_eq. reflexivity. }
  congruence.
Qed.

Lemma entries_found_lookup (d : list (pystr * pystr)) (k c : pystr) :
  Reading.entries_found d = true -> In (k, c) d -> dict_lookup d k = Some c.
Proof.
  unfold Reading.entries_found. rewrite forallb_forall. intros H Hin.
  specialize (H (k, c) Hin). simpl in H.
  destruct (dict_lookup d k) as [v|]; [|discriminate].
  apply str_eqb_eq in H. congruence.
Qed.

Section MoreLookupFacts.

Variables str_upper str_title : pystr -> pystr.

(** X3. A hit answers with the capital of the entry hit: when the
    normalized input is the key of an entry of the table, the tool
    returns "A capital de <key> é <capital>" with that entry's capital
    (no entry is shadowed by another with the same key). *)
Theorem lookup_hit_returns_capital
    (state k1 c1 country k2 c2 : pystr) :
  In (k1, c1) US_STATE_CAPITALS ->
  str_upper (strip state) = k1 ->
  In (k2, c2) SOUTH_AMERICAN_CAPITALS ->
  str_title (strip country) = k2 ->
  get_us_state_capital str_upper state
  = Ok (py "A capital de " ++ k1 ++ py " é " ++ c1)
  /\ get_south_american_capital str_title country
     = Ok (py "A capital de " ++ k2 ++ py " é " ++ c2).
Proof.
  intros H1 E1 H2 E2.
  apply (entries_found_lookup US_STATE_CAPITALS) in H1;
    [|vm_compute; reflexivity].
  apply (entries_found_lookup SOUTH_AMERICAN_CAPITALS) in H2;
    [|vm_compute; reflexivity].
  unfold get_us_state_capital, get_south_american_capital.
  rewrite E1, E2. unfold dict_contains, dict_getitem. rewrite H1, H2.
  split; reflexivity.
Qed.

End MoreLookupFacts.

Lemma lookup_ignores_padding_witness :
  get_us_state_capital Latin1.upper ([9%N; 32%N] ++ py "tx" ++ [10%N])
  = get_us_state_capital Latin1.upper (py "tx")
  /\ get_south_american_capital Latin1.title
       ([9%N; 32%N] ++ py "tx" ++ [10%N])
     = get_south_american_capital Latin1.title (py "tx").
Proof.
  apply (lookup_ignores_padding Latin1.upper Latin1.title
           [9%N; 32%N] (py "tx") [10%N]); reflexivity.
Defined.

Lemma lookup_hit_returns_capital_witness :
  get_us_state_capital Latin1.upper (py " tx")
  = Ok (py "A capital de " ++ py "TX" ++ py " é " ++ py "Austin")
  /\ get_south_american_capital Latin1.title (py "BRASIL ")
     = Ok (py "A capital de " ++ py "Brasil" ++ py " é " ++ py "Brasília").
Proof.
  apply (@lookup_hit_returns_capital Latin1.upper Latin1.title
           (py " tx") (py "TX") (py "Austin")
           (py "BRASIL ") (py "Brasil") (py "Brasília"));
    try reflexivity.
  - unfold US_STATE_CAPITALS.
    repeat (first [left; reflexivity | right]).
  - unfold SOUTH_AMERICAN_CAPITALS.
    repeat (first [left; reflexivity | right]).
Defined.

(** X4. The tables are consistent with the normalization the tools
    apply: the 50 state codes are pairwise distinct, so are the 13
    country names, and every key is already in normal form (upper case,
    title case), so that each entry is found under its own spelling. *)
Theorem every_table_entry_is_found :
  length US_STATE_CAPITALS = 50
  /\ length SOUTH_AMERICAN_CAPITALS = 13
  /\ NoDup (dict_keys US_STATE_CAPITALS)
  /\ NoDup (dict_keys SOUTH_AMERICAN_CAPITALS)
  /\ Forall (fun kv =>
               get_us_state_capital Latin1.upper (fst kv)
               = Ok (py "A capital de " ++ fst kv ++ py " é " ++ snd kv))
       US_STATE_CAPITALS
  /\ Forall (fun kv =>
               get_south_american_capital Latin1.title (fst kv)
               = Ok (py "A capital de " ++ fst kv ++ py " é " ++ snd kv))
       SOUTH_AMERICAN_CAPITALS.
Proof.
  split; [reflexivity|]. split; [reflexivity|].
  split; [apply distinct_NoDup; vm_compute; reflexivity|].
  split; [apply distinct_NoDup; vm_compute; reflexivity|].
  split; unfold US_STATE_CAPITALS, SOUTH_AMERICAN_CAPITALS;
    repeat (constructor; [vm_compute; reflexivity|]); constructor.
Qed.

(* ================================================================== *)
(** * More on the network tools *)
(* ================================================================== *)

Section MoreNetworkFacts.

Variable float : Type.
Variable float_truthy : float -> bool.
Variable float_repr : float -> pystr.
Variable str_repr : pystr -> pystr.
Variable net : Type.
Variable http_get : pystr -> net -> http_outcome float * net.

Local Abbreviation json := (Weather.json float).
Local Abbreviation points_url := (Weather.points_url float_repr).
Local Abbreviation make_nws_request := (Weather.make_nws_request http_get).
Local Abbreviation truthy := (Weather.truthy float_truthy).
Local Abbreviation format_alert := (Weather.format_alert float_repr str_repr).
Local Abbreviation format_period := (Weather.format_period float_repr str_repr).
Local Abbreviation get_alerts :=
  (Weather.get_alerts float_truthy float_repr str_repr http_get).
Local Abbreviation get_forecast :=
  (Weather.get_forecast float_truthy float_repr str_repr http_get).

(** X5. [format_alert] returns a text exactly on a feature that is an
    object with an object under "properties"; which fields that object
    has does not matter, a missing one is printed as its default. *)
Theorem format_alert_needs_properties_only (feature : json) :
  ((exists text, format_alert feature = Ok text)
   <-> (exists fields props,
          feature = JDict fields
          /\ dict_lookup fields (py "properties") = Some (JDict props)))
  /\ format_alert (JDict [(py "properties", JDict [])])
     = Ok (nl ++ py "Event: Unknown" ++ nl
           ++ py "Area: Unknown" ++ nl
           ++ py "Severity: Unknown" ++ nl
           ++ py "Description: No description available" ++ nl
           ++ py "Instructions: No specific instructions provided" ++ nl).
Proof.
  split; [|reflexivity]. split.
  - intros [text H]. unfold Weather.format_alert in H.
    destruct feature as [| | | | |items|fields]; try discriminate.
    unfold getitem, dict_getitem in H.
    destruct (dict_lookup fields (py "properties")) as [props|] eqn:E;
      [|discriminate].
    destruct props; try discriminate. eauto.
  - intros (fields & props & -> & E). unfold Weather.format_alert.
    unfold getitem, dict_getitem. rewrite E. simpl. eauto.
Qed.

Lemma format_alerts_all (features : list json) :
  Forall (fun feature => exists text, format_alert feature = Ok text)
         features ->
  exists alerts, map_res format_alert features = Ok alerts.
Proof.
  induction 1 as [|feature features [text Ht] _ [alerts Ha]]; simpl.
  - eauto.
  - rewrite Ht. simpl. rewrite Ha. simpl. eauto.
Qed.

(** X6. When the alerts fetch succeeds with an object whose "features"
    is a non-empty list of features that [format_alert] accepts,
    [get_alerts] raises nothing and returns all of them formatted, one
    text per feature in the order of the list, joined by the separator
    line; unlike the forecast, nothing is cut off. *)
Theorem get_alerts_lists_every_feature (state : pystr) (n n1 : net)
    (status : Z) (fields : list (pystr * json)) (features : list json) :
  http_get (alerts_url state) n
  = (Response status (Some (JDict fields)), n1) ->
  is_success status = true ->
  dict_lookup fields (py "features") = Some (JList features) ->
  features <> [] ->
  Forall (fun feature => exists text, format_alert feature = Ok text)
         features ->
  exists alerts,
    get_alerts state n = (Ok (join separator alerts), n1)
    /\ length alerts = length features
    /\ Forall2 (fun feature text => format_alert feature = Ok text)
         features alerts.
Proof.
  intros H Hs Hl Hne Hall.
  destruct (format_alerts_all Hall) as [alerts Ha]. exists alerts.
  pose proof (map_res_Forall2 _ _ Ha) as HF.
  split; [|split; [symmetry; exact (Forall2_length HF) | exact HF]].
  unfold Weather.get_alerts, bind, lift, ret.
  rewrite (@make_nws_request_success float net http_get _ _ _ _ _ H Hs).
  destruct fields as [|field fields]; [discriminate|].
  cbn [Weather.truthy negb contains rbind]. unfold dict_contains.
  rewrite Hl. cbn [negb]. unfold getitem, dict_getitem. rewrite Hl.
  destruct features as [|feature features]; [congruence|].
  cbn [Weather.truthy negb iter]. rewrite Ha. reflexivity.
Qed.

(** X7. With at most five periods in the forecast payload every period
    is shown, in order; with none, [get_forecast] returns the empty
    text (there is no "no forecast" message). *)
Theorem get_forecast_shows_all_of_few (latitude longitude : float)
    (n n1 n2 : net)
    (points_data properties forecast_url forecast_data forecast_properties
       : json)
    (periods : list json) :
  make_nws_request (JStr (points_url latitude longitude)) n
  = (Ok points_data, n1) ->
  truthy points_data = true ->
  getitem points_data (py "properties") = Ok properties ->
  getitem properties (py "forecast") = Ok forecast_url ->
  make_nws_request forecast_url n1 = (Ok forecast_data, n2) ->
  truthy forecast_data = true ->
  getitem forecast_data (py "properties") = Ok forecast_properties ->
  getitem forecast_properties (py "periods") = Ok (JList periods) ->
  length periods <= 5 ->
  get_forecast latitude longitude n
  = (let? forecasts := map_res format_period periods in
     Ok (join separator forecasts), n2)
  /\ (periods = [] -> get_forecast latitude longitude n = (Ok [], n2)).
Proof.
  intros H1 Ht Hp Hu H2 Ht2 Hp2 Hps Hlen.
  assert (E : get_forecast latitude longitude n
              = (let? forecasts := map_res format_period periods in
                 Ok (join separator forecasts), n2)).
  { rewrite get_forecast_second_fetch
      with (1 := H1) (2 := Ht) (3 := Hp) (4 := Hu) (5 := H2).
    rewrite Ht2, Hp2. cbn [negb rbind]. rewrite Hps.
    cbn [rbind slice5 iter]. rewrite firstn_all2 by exact Hlen.
    destruct (map_res _ _); reflexivity. }
  split; [exact E|]. intros ->. rewrite E. reflexivity.
Qed.

(** X8. A fetch that succeeds with an empty payload (an empty object or
    list, [0], an empty string, [false], [null]) is answered like a
    failed one: each tool tests the payload for truth only. *)
Theorem empty_payload_reads_as_failure :
  (forall state n n1 status data,
     http_get (alerts_url state) n = (Response status (Some data), n1) ->
     is_success status = true ->
     truthy data = false ->
     get_alerts state n
     = (Ok (py "Unable to fetch alerts or no alerts found."), n1))
  /\ (forall latitude longitude n n1 status data,
     http_get (points_url latitude longitude) n
     = (Response status (Some data), n1) ->
     is_success status = true ->
     truthy data = false ->
     get_forecast latitude longitude n
     = (Ok (py "Unable to fetch forecast data for this location."), n1))
  /\ (forall latitude longitude n n1 n2 points_data properties url
             status data,
     make_nws_request (JStr (points_url latitude longitude)) n
     = (Ok points_data, n1) ->
     truthy points_data = true ->
     getitem points_data (py "properties") = Ok properties ->
     getitem properties (py "forecast") = Ok (JStr url) ->
     http_get url n1 = (Response status (Some data), n2) ->
     is_success status = true ->
     truthy data = false ->
     get_forecast latitude longitude n
     = (Ok (py "Unable to fetch detailed forecast."), n2)).
Proof.
  repeat split.
  - intros state n n1 status data H Hs Ht.
    unfold Weather.get_alerts, bind, lift, ret.
    rewrite (@make_nws_request_success float net http_get _ _ _ _ _ H Hs), Ht. reflexivity.
  - intros latitude longitude n n1 status data H Hs Ht.
    unfold Weather.get_forecast, bind, lift, ret.
    rewrite (@make_nws_request_success float net http_get _ _ _ _ _ H Hs), Ht. reflexivity.
  - intros latitude longitude n n1 n2 points_data properties url
      status data H1 Ht1 Hp Hu H Hs Ht.
    rewrite get_forecast_second_fetch
      with (1 := H1) (2 := Ht1) (3 := Hp) (4 := Hu)
           (5 := @make_nws_request_success float net http_get _ _ _ _ _ H Hs).
    rewrite Ht. reflexivity.
Qed.

End MoreNetworkFacts.

Lemma get_alerts_lists_every_feature_witness :
  exists alerts,
    ScriptedNet.get_alerts (py "CA") [Response 200%Z (Some Samples.alerts)]
    = (Ok (join separator alerts), [])
    /\ length alerts = length Samples.six_features
    /\ Forall2 (fun feature text =>
                  format_alert ScriptedNet.float_repr ScriptedNet.str_repr
                    feature = Ok text)
         Samples.six_features alerts.
Proof.
  refine (@get_alerts_lists_every_feature ScriptedNet.float
            ScriptedNet.float_truthy ScriptedNet.float_repr
            ScriptedNet.str_repr ScriptedNet.net ScriptedNet.http_get
            (py "CA") [Response 200%Z (Some Samples.alerts)] [] 200%Z
            [(py "features", JList Samples.six_features)]
            Samples.six_features eq_refl eq_refl eq_refl _ _).
  - discriminate.
  - repeat constructor; eexists; vm_compute; reflexivity.
Defined.

Lemma get_forecast_shows_all_of_few_witness :
  ScriptedNet.get_forecast 39%Z (-97)%Z
    [Response 200%Z (Some ScriptedNet.sample_points);
     Response 200%Z (Some Samples.short_forecast)]
  = (let? forecasts :=
       map_res (format_period ScriptedNet.float_repr ScriptedNet.str_repr)
         Samples.two_periods in
     Ok (join separator forecasts), []).
Proof.
  refine (proj1
    (@get_forecast_shows_all_of_few ScriptedNet.float
       ScriptedNet.float_truthy ScriptedNet.float_repr ScriptedNet.str_repr
       ScriptedNet.net ScriptedNet.http_get 39%Z (-97)%Z
       [Response 200%Z (Some ScriptedNet.sample_points);
        Response 200%Z (Some Samples.short_forecast)]
       [Response 200%Z (Some Samples.short_forecast)] []
       ScriptedNet.sample_points _ _ Samples.short_forecast _
       Samples.two_periods
       eq_refl eq_refl eq_refl eq_refl eq_refl eq_refl eq_refl eq_refl _)).
  simpl. lia.
Defined.

Lemma empty_payload_reads_as_failure_witness :
  ScriptedNet.get_alerts (py "CA") [Response 200%Z (Some (JDict []))]
  = (Ok (py "Unable to fetch alerts or no alerts found."), [])
  /\ ScriptedNet.get_forecast 39%Z (-97)%Z [Response 200%Z (Some (JList []))]
     = (Ok (py "Unable to fetch forecast data for this location."), [])
  /\ ScriptedNet.get_forecast 39%Z (-97)%Z
       [Response 200%Z (Some ScriptedNet.sample_points);
        Response 200%Z (Some (JInt 0))]
     = (Ok (py "Unable to fetch detailed forecast."), []).
Proof.
  pose proof
    (@empty_payload_reads_as_failure ScriptedNet.float
       ScriptedNet.float_truthy ScriptedNet.float_repr ScriptedNet.str_repr
       ScriptedNet.net ScriptedNet.http_get) as (A & B & C).
  split; [|split].
  - exact (A (py "CA") [Response 200%Z (Some (JDict []))] [] 200%Z (JDict [])
             eq_refl eq_refl eq_refl).
  - exact (B 39%Z (-97)%Z [Response 200%Z (Some (JList []))] [] 200%Z
             (JList []) eq_refl eq_refl eq_refl).
  - exact (C 39%Z (-97)%Z
             [Response 200%Z (Some ScriptedNet.sample_points);
              Response 200%Z (Some (JInt 0))]
             [Response 200%Z (Some (JInt 0))] []
             ScriptedNet.sample_points _ _ 200%Z (JInt 0)
             eq_refl eq_refl eq_refl eq_refl eq_refl eq_refl eq_refl).
Defined.

(* ================================================================== *)
(** * More on [process_query] *)
(* ================================================================== *)

Section MoreClientFacts.

Variables schema pyobj tool_content world : Type.
Variable list_tools : M world (list (tool schema)).
Variable chat_completions_create :
  pystr -> list (message tool_content) -> list (function_tool schema)
  -> M world (list chat_message).
Variable py_eval : pystr -> M world pyobj.
Variable call_tool : pystr -> pyobj -> M world tool_content.
Variable obj_str : pyobj -> M world pystr.
Variable reach :
  event pyobj tool_content -> world -> frame schema tool_content
  -> option (frame schema tool_content).

Local Abbreviation state := (Client.state pyobj tool_content world).
Local Abbreviation round := (Client.round pyobj tool_content).
Local Abbreviation process_query_body :=
  (Client.process_query_body list_tools chat_completions_create
     py_eval call_tool obj_str reach).
Local Abbreviation process_query :=
  (Client.process_query list_tools chat_completions_create
     py_eval call_tool obj_str reach).
Local Abbreviation available tools :=
  (map (fun tool => {| name := tool_name tool;
                       description := tool_description tool;
                       input_schema := tool_inputSchema tool |}) tools).

(** X10. When the first model call raises, [process_query] raises the
    same exception: the tools were listed, nothing was evaluated, no
    tool was called. *)
Theorem model_failure_fails_query (fuel : nat) (query : pystr)
    (st : state) (tools : list (tool schema)) (w1 w2 : world) (e : exn) :
  list_tools (outside st) = (Ok tools, w1) ->
  chat_completions_create (py "gpt-4o-mini") [UserMessage query]
    (function_tools (available tools)) w1
  = (Raise e, w2) ->
  process_query fuel query st
  = (Raise e,
     {| outside := w2;
        trace := trace st
                 ++ [ListTools;
                     ModelCall (py "gpt-4o-mini") [UserMessage query]] |}).
Proof.
  intros Hl Hc.
  unfold Client.process_query, Client.process_query_body.
  unfold create. unfold bind, outside_call, lift, ret.
  rewrite Hl. cbn [outside trace]. rewrite Hc.
  rewrite <- app_assoc. reflexivity.
Qed.

(** X13. A response with no tool call and no text makes
    [process_query] raise [TypeError]: the join of [final_text] meets
    [None]. *)
Theorem no_text_no_calls_raises (fuel : nat) (query : pystr)
    (st : state) (tools : list (tool schema)) (w1 w2 : world)
    (m : chat_message) (others : list chat_message) :
  list_tools (outside st) = (Ok tools, w1) ->
  chat_completions_create (py "gpt-4o-mini") [UserMessage query]
    (function_tools (available tools)) w1
  = (Ok (m :: others), w2) ->
  requested_calls m = [] ->
  content m = None ->
  process_query fuel query st
  = (Raise TypeError,
     {| outside := w2;
        trace := trace st
                 ++ [ListTools;
                     ModelCall (py "gpt-4o-mini") [UserMessage query]] |}).
Proof.
  intros Hl Hc Hr Ht.
  unfold Client.process_query, Client.process_query_body.
  unfold create. unfold bind, outside_call, lift, ret.
  rewrite Hl. cbn [outside trace]. rewrite Hc. cbn [first_choice].
  rewrite Hr, Ht. cbn [snd fst join_lines all_text rbind].
  rewrite <- app_assoc. reflexivity.
Qed.

Lemma called_tools_app (xs ys : list (event pyobj tool_content)) :
  Reading.called_tools (xs ++ ys)
  = Reading.called_tools xs ++ Reading.called_tools ys.
Proof.
  induction xs as [|[| | | | |] xs IH]; simpl; congruence.
Qed.

Lemma called_tools_loop (rounds : list round) :
  forall base : list (message tool_content),
    Reading.called_tools (loop_events base rounds)
    = map (fun r => function_name (round_call r)) rounds.
Proof.
  induction rounds as [|r rounds IH]; intros base; simpl; [reflexivity|].
  rewrite IH. reflexivity.
Qed.

(** X12. Only the tool calls of the first response are carried out.
    When a call of [process_query] completes and no call to the outside
    has changed an object of its frame, the tools it has called are
    those the first response requested, once each and in that order,
    whatever the later replies request. *)
Theorem later_tool_calls_never_run (fuel : nat) (query : pystr)
    (st st' : state) (tools : list (tool schema)) (w1 w2 : world)
    (m : chat_message) (others : list chat_message)
    (conversation : list (message tool_content)) (text : pystr) :
  list_tools (outside st) = (Ok tools, w1) ->
  chat_completions_create (py "gpt-4o-mini") [UserMessage query]
    (function_tools (available tools)) w1
  = (Ok (m :: others), w2) ->
  process_query_body fuel query st = (Ok (conversation, text), st') ->
  frame_changes (trace st') = frame_changes (trace st) ->
  exists events,
    trace st' = trace st ++ events
    /\ Reading.called_tools events
       = map function_name (requested_calls m).
Proof.
  intros Hl Hc H Hq.
  apply process_query_body_run in H; [|exact Hq].
  destruct H as (tools' & w1' & m' & others' & w2' & rounds
                 & Hl' & Hc' & Hr & Hm & Hj & Ht).
  rewrite Hl in Hl'. injection Hl' as <- <-.
  rewrite Hc in Hc'. injection Hc' as <- <- <-.
  eexists. split; [exact Ht|]. simpl.
  rewrite called_tools_loop, <- Hr, map_map. reflexivity.
Qed.

End MoreClientFacts.

Lemma model_failure_fails_query_witness :
  ScriptedChat.process_query (py "hello") (ScriptedChat.start [])
  = (Raise (Foreign (py "APIError")),
     {| outside := [];
        trace := [ListTools;
                  ModelCall (py "gpt-4o-mini") [UserMessage (py "hello")]] |}).
Proof.
  eapply (@model_failure_fails_query unit pystr pystr ScriptedChat.world
            ScriptedChat.list_tools ScriptedChat.chat_completions_create
            ScriptedChat.py_eval ScriptedChat.call_tool ScriptedChat.obj_str
            ScriptedChat.reach ScriptedChat.fuel
            (py "hello") (ScriptedChat.start []));
    reflexivity.
Defined.

Lemma process_query_evaluates_payload_witness :
  ScriptedShell.process_query_rejecting (py "alerts?")
    (ScriptedChat.start ScriptedChat.two_calls)
  = (Raise (Foreign (py "NameError")),
     {| outside := [[ScriptedChat.says (py "first")];
                    [ScriptedChat.says (py "second")]];
        trace := [ListTools;
                  ModelCall (py "gpt-4o-mini") [UserMessage (py "alerts?")];
                  Eval (py "{'state': 'CA'}")] |}).
Proof.
  eapply (@process_query_evaluates_payload unit pystr pystr
            ScriptedChat.world
            ScriptedChat.list_tools ScriptedChat.chat_completions_create
            ScriptedShell.rejecting_eval ScriptedChat.call_tool
            ScriptedChat.obj_str ScriptedChat.reach 7
            (py "alerts?") (ScriptedChat.start ScriptedChat.two_calls)
            _ _ _ _ _ _ ScriptedChat.call_1 [ScriptedChat.call_2]);
    reflexivity.
Defined.

Lemma no_text_no_calls_raises_witness :
  ScriptedChat.process_query (py "hello")
    (ScriptedChat.start [[Samples.silent]])
  = (Raise TypeError,
     {| outside := [];
        trace := [ListTools;
                  ModelCall (py "gpt-4o-mini") [UserMessage (py "hello")]] |}).
Proof.
  eapply (@no_text_no_calls_raises unit pystr pystr ScriptedChat.world
            ScriptedChat.list_tools ScriptedChat.chat_completions_create
            ScriptedChat.py_eval ScriptedChat.call_tool ScriptedChat.obj_str
            ScriptedChat.reach ScriptedChat.fuel
            (py "hello") (ScriptedChat.start [[Samples.silent]]));
    reflexivity.
Defined.

Lemma later_tool_calls_never_run_witness :
  exists events,
    trace (snd (ScriptedChat.process_query_body (py "alerts?")
                  (ScriptedChat.start Samples.eager)))
    = [] ++ events
    /\ Reading.called_tools events = [py "get_alerts"].
Proof.
  refine (@later_tool_calls_never_run unit pystr pystr ScriptedChat.world
            ScriptedChat.list_tools ScriptedChat.chat_completions_create
            ScriptedChat.py_eval ScriptedChat.call_tool ScriptedChat.obj_str
            ScriptedChat.reach ScriptedChat.fuel
            (py "alerts?") (ScriptedChat.start Samples.eager)
            (snd (ScriptedChat.process_query_body (py "alerts?")
                    (ScriptedChat.start Samples.eager)))
            _ _ _ (ScriptedChat.requests [ScriptedChat.call_1]) _ _ _
            _ _ _ _);
    [reflexivity | reflexivity | vm_compute; reflexivity
    | vm_compute; reflexivity].
Defined.

(* ================================================================== *)
(** * Start-up and the interactive loop *)
(* ================================================================== *)

Lemma startswith_split (p s : pystr) :
  startswith p s = true -> s = p ++ skipn (length p) s.
Proof.
  revert s. induction p as [|x p IH]; intros [|y s]; simpl;
    try reflexivity; try discriminate.
  rewrite andb_true_iff, N.eqb_eq. intros [-> H]. f_equal. auto.
Qed.

Lemma lstrip_before_nonspace (x : pystr) (c : codepoint) (y : pystr) :
  isspace c = false -> lstrip (x ++ c :: y) = lstrip x ++ c :: y.
Proof.
  intros Hc. induction x as [|d x IH]; simpl.
  - rewrite Hc. reflexivity.
  - destruct (isspace d); auto.
Qed.

(** Stripping a line that starts with the key's name only trims the
    end of the value. *)
Lemma strip_key_line (rest : pystr) :
  strip (py "OPENAI_API_KEY=" ++ rest) = py "OPENAI_API_KEY=" ++ rstrip rest.
Proof.
  unfold strip.
  replace (lstrip (py "OPENAI_API_KEY=" ++ rest))
    with (py "OPENAI_API_KEY=" ++ rest) by reflexivity.
  unfold rstrip. rewrite rev_app_distr.
  replace (rev (py "OPENAI_API_KEY=")) with (61%N :: rev (py "OPENAI_API_KEY"))
    by reflexivity.
  rewrite lstrip_before_nonspace by reflexivity.
  rewrite rev_app_distr. reflexivity.
Qed.

Lemma key_of_line (line : pystr) :
  startswith (py "OPENAI_API_KEY=") line = true ->
  nth_error (Shell.split_once 61%N (strip line)) 1
  = Some (rstrip (skipn 15 line)).
Proof.
  intros H. apply startswith_split in H.
  change (length (py "OPENAI_API_KEY=")) with 15 in H.
  rewrite H at 1. rewrite strip_key_line. reflexivity.
Qed.

(** X14. [MCPClient.__init__] takes the key from the first line of
    [.env] that starts with "OPENAI_API_KEY=": the key is everything
    after that prefix with trailing whitespace (the line end) removed;
    an "=" or leading blanks in the value are kept, later lines are not
    read, and the subscript [1] never raises. *)
Theorem init_takes_first_key_line (before : list pystr) (line : pystr)
    (after : list pystr) :
  Forall (fun l => startswith (py "OPENAI_API_KEY=") l = false) before ->
  startswith (py "OPENAI_API_KEY=") line = true ->
  Shell.MCPClient_init (before ++ line :: after)
  = Shell.Returned (rstrip (skipn 15 line)).
Proof.
  intros Hb Hl.
  induction Hb as [|l before Hn _ IH]; cbn [app Shell.MCPClient_init].
  - rewrite Hl, (key_of_line _ Hl). reflexivity.
  - rewrite Hn. exact IH.
Qed.

Lemma init_takes_first_key_line_witness :
  Shell.MCPClient_init
    [ py "# keys" ++ [10%N];
      py " OPENAI_API_KEY=indented" ++ [10%N];
      py "OPENAI_API_KEY= sk-a=b " ++ [13%N; 10%N];
      py "OPENAI_API_KEY=second" ++ [10%N] ]
  = Shell.Returned (py " sk-a=b").
Proof.
  apply (@init_takes_first_key_line
           [ py "# keys" ++ [10%N]; py " OPENAI_API_KEY=indented" ++ [10%N] ]
           (py "OPENAI_API_KEY= sk-a=b " ++ [13%N; 10%N])
           [ py "OPENAI_API_KEY=second" ++ [10%N] ]);
    [repeat constructor | reflexivity].
Defined.

(** X15. [MCPClient.__init__] raises its [ValueError] exactly when no
    line of [.env] starts with "OPENAI_API_KEY=" (a line that is
    indented, or that has "export" before the name, does not count). *)
Theorem init_fails_without_key_line (lines : list pystr) :
  Shell.MCPClient_init lines
  = Shell.Raised (Shell.ValueError (py "OPENAI_API_KEY not found in .env file"))
  <-> Forall (fun l => startswith (py "OPENAI_API_KEY=") l = false) lines.
Proof.
  induction lines as [|line lines IH]; cbn [Shell.MCPClient_init].
  - split; [constructor | reflexivity].
  - destruct (startswith (py "OPENAI_API_KEY=") line) eqn:E.
    + rewrite (key_of_line _ E). split; [discriminate|].
      intros H. inversion H. congruence.
    + rewrite IH. split; [constructor; assumption|].
      intros H. inversion H. assumption.
Qed.

Section ConnectFacts.

Variable world : Type.
Variable stdio_client : pystr -> list pystr -> M world unit.
Variable client_session : M world unit.
Variable initialize : M world unit.
Variable list_tool_names : M world (list pystr).
Variable str_repr : pystr -> pystr.

Local Abbreviation connect_to_server :=
  (Shell.connect_to_server stdio_client client_session initialize
     list_tool_names str_repr).

(** Once the extension is accepted, the first thing done is to start the
    server with the chosen command and the path as its one argument. *)
Lemma connect_starts_server (path command : pystr)
    (st : Shell.connection world) :
  Shell.endswith (py ".py") path || Shell.endswith (py ".js") path = true ->
  command = (if Shell.endswith (py ".py") path
             then py "python" else py "node") ->
  exists r st' more,
    connect_to_server path st = (r, st')
    /\ Shell.steps st'
       = Shell.steps st ++ Shell.StdioClient command [path] :: more.
Proof.
  intros Hext ->. unfold Shell.connect_to_server. rewrite Hext.
  cbn [negb]. unfold bind, Shell.outside_step, Shell.print_with_list.
  destruct (stdio_client _ _ (Shell.server st)) as [[[]|e|] w1];
    cbn [Shell.server Shell.steps];
    [|do 3 eexists; split; [reflexivity|]; cbn [Shell.steps]; reflexivity..].
  destruct (client_session w1) as [[[]|e|] w2];
    cbn [Shell.server Shell.steps];
    [|do 3 eexists; split; [reflexivity|]; cbn [Shell.steps];
      rewrite <- !app_assoc; reflexivity..].
  destruct (initialize w2) as [[[]|e|] w3];
    cbn [Shell.server Shell.steps];
    [|do 3 eexists; split; [reflexivity|]; cbn [Shell.steps];
      rewrite <- !app_assoc; reflexivity..].
  destruct (list_tool_names w3) as [[names|e|] w4];
    cbn [Shell.server Shell.steps];
    do 3 eexists; (split; [reflexivity|]); cbn [Shell.steps];
    rewrite <- !app_assoc; reflexivity.
Qed.

(** X16. [connect_to_server] looks at the end of the path before it
    touches anything: a path that ends neither in ".py" nor in ".js"
    (the test is case-sensitive) raises [ValueError] and nothing is
    started; otherwise the first thing done is to start the server, with
    "python" for ".py" and "node" for ".js", and the path as its only
    argument. *)
Theorem connect_checks_extension_first (path : pystr)
    (st : Shell.connection world) :
  (Shell.endswith (py ".py") path = false ->
   Shell.endswith (py ".js") path = false ->
   connect_to_server path st
   = (Shell.Raised
        (Shell.ValueError (py "Server script must be a .py or .js file")),
      st))
  /\ (Shell.endswith (py ".py") path = true ->
      exists r st' more,
        connect_to_server path st = (r, st')
        /\ Shell.steps st'
           = Shell.steps st
             ++ Shell.StdioClient (py "python") [path] :: more)
  /\ (Shell.endswith (py ".py") path = false ->
      Shell.endswith (py ".js") path = true ->
      exists r st' more,
        connect_to_server path st = (r, st')
        /\ Shell.steps st'
           = Shell.steps st
             ++ Shell.StdioClient (py "node") [path] :: more).
Proof.
  split; [|split].
  - intros Hp Hj. unfold Shell.connect_to_server. rewrite Hp, Hj.
    reflexivity.
  - intros Hp. apply connect_starts_server; rewrite Hp; reflexivity.
  - intros Hp Hj. apply connect_starts_server; rewrite Hp, ?Hj; reflexivity.
Qed.

End ConnectFacts.

Lemma connect_checks_extension_first_witness :
  ScriptedShell.connect_to_server (py "weather.PY") ScriptedShell.fresh
  = (Shell.Raised
       (Shell.ValueError (py "Server script must be a .py or .js file")),
     ScriptedShell.fresh)
  /\ (exists r st' more,
        ScriptedShell.connect_to_server (py "weather.py") ScriptedShell.fresh
        = (r, st')
        /\ Shell.steps st'
           = [] ++ Shell.StdioClient (py "python") [py "weather.py"] :: more)
  /\ (exists r st' more,
        ScriptedShell.connect_to_server (py "build/index.js")
          ScriptedShell.fresh
        = (r, st')
        /\ Shell.steps st'
           = [] ++ Shell.StdioClient (py "node") [py "build/index.js"]
             :: more).
Proof.
  split; [|split].
  - apply (proj1 (@connect_checks_extension_first unit
                    (fun command args => ret tt) (ret tt) (ret tt)
                    (ret [py "get_alerts"]) ScriptedNet.str_repr
                    (py "weather.PY") ScriptedShell.fresh));
      reflexivity.
  - apply (proj1 (proj2 (@connect_checks_extension_first unit
                    (fun command args => ret tt) (ret tt) (ret tt)
                    (ret [py "get_alerts"]) ScriptedNet.str_repr
                    (py "weather.py") ScriptedShell.fresh)));
      reflexivity.
  - apply (proj2 (proj2 (@connect_checks_extension_first unit
                    (fun command args => ret tt) (ret tt) (ret tt)
                    (ret [py "get_alerts"]) ScriptedNet.str_repr
                    (py "build/index.js") ScriptedShell.fresh)));
      reflexivity.
Defined.

(** What the scripted server is told, step by step. *)
Example scripted_connection :
  ScriptedShell.connect_to_server (py "weather.py") ScriptedShell.fresh
  = (Shell.Returned tt,
     {| Shell.server := tt;
        Shell.steps :=
          [ Shell.StdioClient (py "python") [py "weather.py"];
            Shell.ClientSession; Shell.Initialize; Shell.ListTools;
            Shell.Print ([10%N] ++ py "Connected to server with tools: ['get_alerts']"
                         ++ [10%N]) ] |}).
Proof. vm_compute. reflexivity. Qed.

Section ChatLoopFacts.

Variable session : Type.
Variable process_query : pystr -> M session pystr.
Variable str_lower : pystr -> pystr.
Variable exn_str : exn -> pystr.
Variable derives_Exception : pystr -> bool.

Local Abbreviation is_quit := (Shell.is_quit str_lower).
Local Abbreviation is_Exception := (Shell.is_Exception derives_Exception).
Local Abbreviation chat_turns :=
  (Shell.chat_turns process_query str_lower exn_str derives_Exception).
Local Abbreviation chat_loop :=
  (Shell.chat_loop process_query str_lower exn_str derives_Exception).
Local Abbreviation answered :=
  (Shell.answered process_query exn_str derives_Exception).

(** The loop on lines that are queries and come back into the loop:
    it writes what they get written and goes on with the inputs after
    them. *)
Lemma chat_turns_answered (before : list pystr) :
  Forall (fun line => is_quit line = false) before ->
  forall (client client' : session) (chunks : list pystr)
         (rest : list (res pystr)) (written : list pystr),
    answered before client = Some (chunks, client') ->
    chat_turns (map (@Ok pystr) before ++ rest) written client
    = chat_turns rest (written ++ chunks) client'.
Proof.
  induction 1 as [|line before Hn _ IH];
    intros client client' chunks rest written Ha.
  - injection Ha as <- <-. rewrite app_nil_r. reflexivity.
  - unfold Shell.is_quit in Hn.
    cbn [map app Shell.chat_turns Shell.answered] in Ha |- *. rewrite Hn.
    destruct (process_query (strip line) client) as [[response|e|] client1];
      [| |discriminate].
    + destruct (Shell.answered _ _ _ before client1)
        as [[chunks1 client2]|] eqn:E; [|discriminate].
      injection Ha as <- <-. rewrite (IH _ _ _ rest _ E).
      rewrite <- !app_assoc. reflexivity.
    + destruct (Shell.is_Exception _ e); [|discriminate].
      destruct (Shell.answered _ _ _ before client1)
        as [[chunks1 client2]|] eqn:E; [|discriminate].
      injection Ha as <- <-. rewrite (IH _ _ _ rest _ E).
      rewrite <- !app_assoc. reflexivity.
Qed.

Lemma answered_length (lines : list pystr) :
  forall (client client' : session) (chunks : list pystr),
    answered lines client = Some (chunks, client') ->
    length chunks = 2 * length lines.
Proof.
  induction lines as [|line lines IH]; intros client client' chunks Ha.
  - injection Ha as <- <-. reflexivity.
  - cbn [Shell.answered] in Ha.
    destruct (process_query (strip line) client) as [[response|e|] client1];
      [| |discriminate].
    + destruct (Shell.answered _ _ _ lines client1)
        as [[chunks1 client2]|] eqn:E; [|discriminate].
      injection Ha as <- <-. apply IH in E. simpl. lia.
    + destruct (Shell.is_Exception _ e); [|discriminate].
      destruct (Shell.answered _ _ _ lines client1)
        as [[chunks1 client2]|] eqn:E; [|discriminate].
      injection Ha as <- <-. apply IH in E. simpl. lia.
Qed.

(** X17. [chat_loop] stops at the first line that reads "quit" once
    trimmed and lowered: the inputs after it stay unread.  When each
    line before it is a query that comes back into the loop, what is
    written by then is the banner, then for each of these lines in
    order its prompt and its printed reply (the answer of
    [process_query] to the trimmed line, or the report of the
    [Exception] it raised, each query running on the client as the one
    before left it), and the prompt of the quit line: a prompt and a
    reply per query, so that a query that raises an [Exception] does
    not end the loop. *)
Theorem chat_loop_stops_at_first_quit (before : list pystr) (quit : pystr)
    (after : list (res pystr)) (client client' : session)
    (chunks : list pystr) :
  Forall (fun line => is_quit line = false) before ->
  is_quit quit = true ->
  answered before client = Some (chunks, client') ->
  chat_loop (map (@Ok pystr) before ++ Ok quit :: after) client
  = (Shell.Quit, after, Shell.banner ++ chunks ++ [Shell.prompt], client')
  /\ length chunks = 2 * length before.
Proof.
  intros Hb Hq Ha. split; [|exact (answered_length _ _ Ha)].
  unfold Shell.chat_loop. rewrite (chat_turns_answered Hb _ _ _ Ha).
  unfold Shell.is_quit in Hq. cbn [Shell.chat_turns]. rewrite Hq.
  rewrite <- app_assoc. reflexivity.
Qed.

(** X18. An exception that does not derive from [Exception] ends
    [chat_loop] without "quit": [except Exception] lets it through.
    After queries that came back into the loop, such an exception,
    raised by [input()] or by [process_query] on the next line, leaves
    the loop at once: its prompt is the last thing written, nothing is
    reported, the inputs after it stay unread. *)
Theorem uncaught_exception_leaves_chat_loop (before : list pystr)
    (after : list (res pystr)) (client client1 : session)
    (chunks : list pystr) :
  Forall (fun line => is_quit line = false) before ->
  answered before client = Some (chunks, client1) ->
  (forall e,
     is_Exception e = false ->
     chat_loop (map (@Ok pystr) before ++ Raise e :: after) client
     = (Shell.Escaped e, after,
        Shell.banner ++ chunks ++ [Shell.prompt], client1))
  /\ (forall line e client2,
        is_quit line = false ->
        process_query (strip line) client1 = (Raise e, client2) ->
        is_Exception e = false ->
        chat_loop (map (@Ok pystr) before ++ Ok line :: after) client
        = (Shell.Escaped e, after,
           Shell.banner ++ chunks ++ [Shell.prompt], client2)).
Proof.
  intros Hb Ha. split.
  - intros e He. unfold Shell.chat_loop.
    rewrite (chat_turns_answered Hb _ _ _ Ha).
    cbn [Shell.chat_turns]. rewrite He, <- app_assoc. reflexivity.
  - intros line e client2 Hn Hp He. unfold Shell.chat_loop.
    rewrite (chat_turns_answered Hb _ _ _ Ha).
    unfold Shell.is_quit in Hn. cbn [Shell.chat_turns].
    rewrite Hn, Hp, He, <- app_assoc. reflexivity.
Qed.

End ChatLoopFacts.

Lemma chat_loop_stops_at_first_quit_witness :
  ScriptedShell.chat_loop
    (map (@Ok pystr) [py "hello"; py "again"]
     ++ Ok (py "  QUIT ") :: [Ok (py "never read")])
    (ScriptedChat.start [[ScriptedChat.says (py "Hello!")]])
  = (Shell.Quit, [Ok (py "never read")],
     Shell.banner
     ++ [ Shell.prompt; [10%N] ++ py "Hello!" ++ [10%N];
          Shell.prompt; [10%N] ++ py "Error: APIError" ++ [10%N] ]
     ++ [Shell.prompt],
     {| outside := [];
        trace :=
          [ ListTools;
            ModelCall (py "gpt-4o-mini") [UserMessage (py "hello")];
            ListTools;
            ModelCall (py "gpt-4o-mini") [UserMessage (py "again")] ] |})
  /\ length [ Shell.prompt; [10%N] ++ py "Hello!" ++ [10%N];
              Shell.prompt; [10%N] ++ py "Error: APIError" ++ [10%N] ]
     = 2 * length [py "hello"; py "again"].
Proof.
  apply (@chat_loop_stops_at_first_quit _ ScriptedChat.process_query
           ScriptedShell.lower ScriptedShell.exn_str
           ScriptedShell.derives_Exception
           [py "hello"; py "again"] (py "  QUIT ") [Ok (py "never read")]);
    [repeat constructor | reflexivity | vm_compute; reflexivity].
Defined.

Lemma uncaught_exception_leaves_chat_loop_witness :
  Samples.chat_loop
    (map (@Ok pystr) [py "hello"]
     ++ Raise (Foreign (py "KeyboardInterrupt")) :: [Ok (py "never read")])
    (ScriptedChat.start [[ScriptedChat.says (py "Hello!")]])
  = (Shell.Escaped (Foreign (py "KeyboardInterrupt")),
     [Ok (py "never read")],
     Shell.banner
     ++ [Shell.prompt; [10%N] ++ py "Hello!" ++ [10%N]] ++ [Shell.prompt],
     {| outside := [];
        trace :=
          [ ListTools;
            ModelCall (py "gpt-4o-mini") [UserMessage (py "hello")] ] |})
  /\ Samples.chat_loop
       (map (@Ok pystr) [py "hello"]
        ++ Ok (py "alerts?") :: [Ok (py "never read")])
       (ScriptedChat.start
          ([ScriptedChat.says (py "Hello!")] :: Samples.exiting))
     = (Shell.Escaped (Foreign (py "SystemExit")),
        [Ok (py "never read")],
        Shell.banner
        ++ [Shell.prompt; [10%N] ++ py "Hello!" ++ [10%N]] ++ [Shell.prompt],
        {| outside := [[ScriptedChat.says (py "done")]];
           trace :=
             [ ListTools;
               ModelCall (py "gpt-4o-mini") [UserMessage (py "hello")];
               ListTools;
               ModelCall (py "gpt-4o-mini") [UserMessage (py "alerts?")];
               Eval (py "exit()") ] |}).
Proof.
  split.
  - apply (proj1 (@uncaught_exception_leaves_chat_loop _
                    Samples.process_query ScriptedShell.lower
                    ScriptedShell.exn_str ScriptedShell.derives_Exception
                    [py "hello"] [Ok (py "never read")]
                    (ScriptedChat.start [[ScriptedChat.says (py "Hello!")]])
                    _ _
                    ltac:(repeat constructor)
                    ltac:(vm_compute; reflexivity)));
      reflexivity.
  - apply (proj2 (@uncaught_exception_leaves_chat_loop _
                    Samples.process_query ScriptedShell.lower
                    ScriptedShell.exn_str ScriptedShell.derives_Exception
                    [py "hello"] [Ok (py "never read")]
                    (ScriptedChat.start
                       ([ScriptedChat.says (py "Hello!")] :: Samples.exiting))
                    _ _
                    ltac:(repeat constructor)
                    ltac:(vm_compute; reflexivity)));
      [reflexivity | vm_compute; reflexivity | reflexivity].
Defined.

(** What the terminal shows in a session: the second query finds the
    script of the model used up, and its error is reported; at the end
    of the input [input()] raises [EOFError], which is reported too, and
    the loop asks again. *)
Example scripted_session :
  ScriptedShell.chat_loop
    [ Ok (py "hello"); Ok (py "again");
      Raise (Foreign (py "EOFError")); Raise (Foreign (py "EOFError")) ]
    (ScriptedChat.start [[ScriptedChat.says (py "Hello!")]])
  = (Shell.EndOfInput, [],
     [ [10%N] ++ py "MCP Client Started!" ++ [10%N];
       py "Type your queries or 'quit' to exit." ++ [10%N];
       [10%N] ++ py "Query: ";
       [10%N] ++ py "Hello!" ++ [10%N];
       [10%N] ++ py "Query: ";
       [10%N] ++ py "Error: APIError" ++ [10%N];
       [10%N] ++ py "Query: ";
       [10%N] ++ py "Error: EOFError" ++ [10%N];
       [10%N] ++ py "Query: ";
       [10%N] ++ py "Error: EOFError" ++ [10%N] ],
     {| outside := [];
        trace :=
          [ ListTools;
            ModelCall (py "gpt-4o-mini") [UserMessage (py "hello")];
            ListTools;
            ModelCall (py "gpt-4o-mini") [UserMessage (py "again")] ] |}).
Proof. vm_compute. reflexivity. Qed.
